(** * Docker goal execution: login, build, push, run, image link

    A shallow embedding of the goal executors of the Docker pack:

    - [ExecuteDockerBuild]: [executeDockerBuild], [dockerLogin],
      [dockerPush] and [DefaultDockerImageNameCreator];
    - [DockerExec]: [doDockerRun], [checkIsBuilderAvailable],
      [readRegistries], [dockerConfigPath], [runWithDocker] and
      [runWithKaniko] of lib/build/DockerExec.ts.

    The executors are sequential [async] functions whose only effects are
    calls into the surrounding runtime (child processes, the progress log,
    the graph client, the image-link webhook) and assignments to fields of
    the options object.  They are modelled in a state-and-exception monad:
    the state holds the chronological [trace] of runtime calls and the
    options object the stages share; the answers of the runtime come from a
    [World], a record of functions that may depend on everything that
    happened before. *)

From Stdlib Require Import ZArith List String Ascii Bool Lia.
Import ListNotations.

Local Open Scope string_scope.
Local Open Scope list_scope.
Local Open Scope Z_scope.

(** ** JavaScript values *)

Module JS.

(** Truthiness of a [string | undefined]: [undefined] and the empty string
    are falsy. *)
Definition truthy (v : option string) : bool :=
  match v with
  | None => false
  | Some EmptyString => false
  | Some (String _ _) => true
  end.

(** [x || true] on a [boolean | undefined]. *)
Definition orTrue (v : option bool) : bool :=
  match v with
  | Some true => true
  | _ => true
  end.

(** The character class [A-Za-z0-9].  Strings are sequences of bytes
    (UTF-8); every byte of a character outside ASCII is >= 128 and so
    outside the class, as its UTF-16 code units are. *)
Definition isAlnum (c : ascii) : bool :=
  let n := nat_of_ascii c in
  ((65 <=? n)%nat && (n <=? 90)%nat)
  || ((97 <=? n)%nat && (n <=? 122)%nat)
  || ((48 <=? n)%nat && (n <=? 57)%nat).

(** [/[^A-Za-z0-9]/.test(s)] on a string. *)
Fixpoint testNonAlnumString (s : string) : bool :=
  match s with
  | EmptyString => false
  | String c rest => negb (isAlnum c) || testNonAlnumString rest
  end.

(** [RegExp.prototype.test] converts its argument with [ToString]:
    [undefined] is tested as the text "undefined". *)
Definition toString (v : option string) : string :=
  match v with
  | Some s => s
  | None => "undefined"
  end.

Definition testNonAlnum (v : option string) : bool :=
  testNonAlnumString (toString v).

(** [haystack.includes(needle)]. *)
Fixpoint includes (needle haystack : string) : bool :=
  String.prefix needle haystack
  || match haystack with
     | EmptyString => false
     | String _ rest => includes needle rest
     end.

End JS.

(** ** Results, runtime calls and the world *)

(** [ExecuteGoalResult] / [HandlerResult]: an exit code and an optional
    message. *)
Record ExecuteGoalResult : Type := mkResult {
  code : Z;
  message : option string
}.

(** [Success] of the automation client: [{ code: 0 }]. *)
Definition Success : ExecuteGoalResult := {| code := 0; message := None |}.

(** [result.code !== 0] *)
Definition failed (result : ExecuteGoalResult) : bool :=
  negb (code result =? 0).

(** A settled promise: fulfilled with a value, or rejected with an [Error]
    carrying a message. *)
Inductive Outcome (A : Type) : Type :=
| Ok (a : A)
| Throw (error : string).
Arguments Ok {A} a.
Arguments Throw {A} error.

Record Project : Type := mkProject {
  name : string;
  baseDir : string
}.

Record Repo : Type := mkRepo {
  owner : string;
  repoName : string;
  providerId : string
}.

Record SdmGoalEvent : Type := mkGoalEvent {
  repo : Repo;
  sha : string;
  branch : string;
  goalSetId : string
}.

Record HandlerContext : Type := mkContext {
  workspaceId : string
}.

Record GoalInvocation : Type := mkInvocation {
  sdmGoal : SdmGoalEvent;
  context : HandlerContext
}.

(** The three ways a child process is started. *)
Inductive SpawnApi : Type := SpawnAndWatch | SpawnLog | GiSpawn.

(** One child process: the executable, its arguments, the working
    directory when one is given, and the environment override when one is
    given ([Some d] is an [env] whose [DOCKER_CONFIG] is [d], itself
    possibly [undefined]). *)
Record SpawnCall : Type := mkSpawn {
  api : SpawnApi;
  command : string;
  args : list string;
  cwd : option string;
  env_DOCKER_CONFIG : option (option string)
}.

(** What an invocation does to the outside, in order. *)
Inductive Event : Type :=
| LogWrite (msg : string)
| Spawned (call : SpawnCall)
| PostLinkImage (owner name sha : string) (image : option string)
                (workspaceId : string)
| GraphQuery (queryName : string) (id : option string).

Record RegistryProvider : Type := mkProvider {
  url : string;
  providerName : string;
  credentialId : string
}.

Record PasswordEntry : Type := mkPassword {
  ownerLogin : string;
  secret : string
}.

(** The runtime around the executors.  Every answer may depend on the
    history (the trace so far).  [projectConfigurationValue] gives the
    truthiness of what the library call returns to the [if] that tests
    it. *)
Record World : Type := mkWorld {
  spawnResult : list Event -> SpawnCall -> Outcome ExecuteGoalResult;
  postLinkImageWebhook :
    list Event -> string -> string -> string -> option string -> string ->
    Outcome bool;
  isInLocalMode : bool;
  projectConfigurationValue : string -> Project -> bool -> bool;
  readSdmVersion :
    string -> string -> string -> string -> string -> Outcome string;
  queryDockerRegistryProvider :
    list Event -> Outcome (option (option (list RegistryProvider)));
  queryPassword : list Event -> string -> Outcome (list PasswordEntry);
  urlHost : string -> Outcome string;
  homedir : string;
  pathJoin : string -> string -> string
}.

(** ** The monad of a goal invocation *)

(** The state: the trace, and the options object all stages of the
    invocation hold a reference to. *)
Record St (O : Type) : Type := mkSt {
  trace : list Event;
  options : O
}.
Arguments mkSt {O} trace options.
Arguments trace {O} s.
Arguments options {O} s.

Definition M (O A : Type) : Type := St O -> Outcome A * St O.

Definition ret {O A} (a : A) : M O A := fun s => (Ok a, s).

Definition bind {O A B} (m : M O A) (k : A -> M O B) : M O B :=
  fun s =>
    match m s with
    | (Ok a, s') => k a s'
    | (Throw e, s') => (Throw e, s')
    end.

Definition throw {O A} (e : string) : M O A := fun s => (Throw e, s).

(** [try { m } catch (e) { handler(e) }] *)
Definition tryCatch {O A} (m : M O A) (handler : string -> M O A) : M O A :=
  fun s =>
    match m s with
    | (Ok a, s') => (Ok a, s')
    | (Throw e, s') => handler e s'
    end.

(** [await] of a promise that no runtime call stands behind. *)
Definition await {O A} (o : Outcome A) : M O A := fun s => (o, s).

Definition getOptions {O} : M O O := fun s => (Ok (options s), s).

Definition setOptions {O} (o : O) : M O unit :=
  fun s => (Ok tt, mkSt (trace s) o).

Definition emit {O} (e : Event) : St O -> St O :=
  fun s => mkSt (trace s ++ [e]) (options s).

Declare Scope goal_scope.
Delimit Scope goal_scope with goal.
Notation "x <- m ;; k" := (bind m (fun x => k))
  (at level 100, m at next level, right associativity) : goal_scope.
Notation "m ;;; k" := (bind m (fun _ => k))
  (at level 100, right associativity) : goal_scope.
Local Open Scope goal_scope.

Section Runtime.
Context {O : Type} (W : World).

(** [progressLog.write(msg)] *)
Definition write (msg : string) : M O unit :=
  fun s => (Ok tt, emit (LogWrite msg) s).

(** [spawnAndWatch], [spawnLog] and [gi.spawn]: the process is started
    and awaited. *)
Definition spawn (call : SpawnCall) : M O ExecuteGoalResult :=
  fun s => (spawnResult W (trace s) call, emit (Spawned call) s).

Definition postLink (owner name sha : string) (image : option string)
           (workspaceId : string) : M O bool :=
  fun s =>
    (postLinkImageWebhook W (trace s) owner name sha image workspaceId,
     emit (PostLinkImage owner name sha image workspaceId) s).

Definition queryProviders
  : M O (option (option (list RegistryProvider))) :=
  fun s =>
    (queryDockerRegistryProvider W (trace s),
     emit (GraphQuery "DockerRegistryProvider" None) s).

Definition queryPasswordById (id : string) : M O (list PasswordEntry) :=
  fun s =>
    (queryPassword W (trace s) id,
     emit (GraphQuery "Password" (Some id)) s).

End Runtime.

(** [{ code: 1, message: "Image link failed" }] *)
Definition imageLinkFailed : ExecuteGoalResult :=
  {| code := 1; message := Some "Image link failed" |}.

(** ** executeDockerBuild *)

(** The executor of the docker-build goal (executeDockerBuild.ts): login,
    build, push and image link, on one options object that the closure
    returned by [executeDockerBuild] captures and every invocation
    shares. *)
Module ExecuteDockerBuild.

Record DockerOptions : Type := mkOptions {
  push : option bool;
  registry : option string;
  user : option string;
  password : option string;
  dockerfileFinder : option (Project -> Outcome string)
}.

Record ImageName : Type := mkImageName {
  imageRegistry : option string;
  imageNameOf : string;
  version : string
}.

Definition DockerImageNameCreator : Type :=
  Project -> SdmGoalEvent -> DockerOptions -> HandlerContext ->
  Outcome ImageName.

Definition setPush (o : DockerOptions) (b : option bool) : DockerOptions :=
  {| push := b;
     registry := registry o;
     user := user o;
     password := password o;
     dockerfileFinder := dockerfileFinder o |}.

(** The image reference: the registry and a slash when the registry is
    truthy, then name, colon, version. *)
Definition imageOf (imageName : ImageName) : string :=
  ((if JS.truthy (imageRegistry imageName)
    then JS.toString (imageRegistry imageName) ++ "/"
    else "")
   ++ imageNameOf imageName ++ ":" ++ version imageName)%string.

(** [options.dockerfileFinder ? options.dockerfileFinder(p) : "Dockerfile"] *)
Definition findDockerfile (o : DockerOptions) (p : Project)
  : Outcome string :=
  match dockerfileFinder o with
  | Some finder => finder p
  | None => Ok "Dockerfile"
  end.

Definition loginArgs (o : DockerOptions) : list string :=
  ["login"; "--username"; JS.toString (user o);
   "--password"; JS.toString (password o)]
  ++ (if JS.testNonAlnum (registry o)
      then [JS.toString (registry o)] else []).

Definition loginCall (o : DockerOptions) : SpawnCall :=
  {| api := SpawnAndWatch; command := "docker"; args := loginArgs o;
     cwd := None; env_DOCKER_CONFIG := None |}.

Definition buildCall (p : Project) (dockerfilePath image : string)
  : SpawnCall :=
  {| api := SpawnAndWatch; command := "docker";
     args := ["build"; "."; "-f"; dockerfilePath; "-t"; image];
     cwd := Some (baseDir p); env_DOCKER_CONFIG := None |}.

Definition pushCall (image : string) : SpawnCall :=
  {| api := SpawnAndWatch; command := "docker"; args := ["push"; image];
     cwd := None; env_DOCKER_CONFIG := None |}.

Definition loginNotice : string := "Running 'docker login'".

Definition loginSkipNotice : string :=
  "Skipping 'docker login' because user and password are not configured".

Definition pushMissingMessage : string :=
  ("Required configuration missing for pushing docker image. Please make sure to set "
   ++ "'registry', 'user' and 'password' in your configuration.")%string.

Definition pushSkipNotice : string := "Skipping 'docker push'".

Section WithWorld.
Variable W : World.

(** [dockerLogin(options, progressLog)] *)
Definition dockerLogin : M DockerOptions ExecuteGoalResult :=
  o <- getOptions ;;
  if JS.truthy (user o) && JS.truthy (password o) then
    write loginNotice ;;;
    spawn W (loginCall o)
  else
    write loginSkipNotice ;;;
    ret Success.

(** The options once [dockerPush] has put its default for [push]. *)
Definition pushDefaulted (o : DockerOptions) : DockerOptions :=
  match push o with
  | None => setPush o (Some (negb (isInLocalMode W)))
  | Some _ => o
  end.

(** [dockerPush(image, project, options, progressLog)].  The assignment to
    [options.push] is an assignment to the shared object. *)
Definition dockerPush (image : string) (project : Project)
  : M DockerOptions ExecuteGoalResult :=
  o <- getOptions ;;
  (* Default so that we don't attempt to push in local mode *)
  (match push o with
   | None => setOptions (setPush o (Some (negb (isInLocalMode W))))
   | Some _ => ret tt
   end) ;;;
  o <- getOptions ;;
  if projectConfigurationValue W "docker.push.enabled" project
       (JS.orTrue (push o))
  then
    if negb (JS.truthy (user o)) || negb (JS.truthy (password o)) then
      write pushMissingMessage ;;;
      ret {| code := 1; message := Some pushMissingMessage |}
    else
      spawn W (pushCall image)
  else
    write pushSkipNotice ;;;
    ret Success.

Definition DefaultDockerImageNameCreator : DockerImageNameCreator :=
  fun p sdmGoal o _ =>
    match readSdmVersion W (owner (repo sdmGoal)) (repoName (repo sdmGoal))
            (providerId (repo sdmGoal)) (sha sdmGoal) (branch sdmGoal)
    with
    | Ok v => Ok {| imageRegistry := registry o;
                    imageNameOf := name p;
                    version := v |}
    | Throw e => Throw e
    end.

(** The image link, the last step of [executeDockerBuild]. *)
Definition linkImage (sdmGoal : SdmGoalEvent) (ctx : HandlerContext)
           (image : string) (result : ExecuteGoalResult)
  : M DockerOptions ExecuteGoalResult :=
  linked <- postLink W (owner (repo sdmGoal)) (repoName (repo sdmGoal))
                     (sha sdmGoal) (Some image) (workspaceId ctx) ;;
  if linked : bool then ret result else ret imageLinkFailed.

(** The body run on the cloned project [p]. *)
Definition executeDockerBuild (imageNameCreator : DockerImageNameCreator)
           (goalInvocation : GoalInvocation) (p : Project)
  : M DockerOptions ExecuteGoalResult :=
  let sdmGoal := sdmGoal goalInvocation in
  let ctx := context goalInvocation in
  o <- getOptions ;;
  imageName <- await (imageNameCreator p sdmGoal o ctx) ;;
  let image := imageOf imageName in
  dockerfilePath <- await (findDockerfile o p) ;;
  (* 1. run docker login *)
  result <- dockerLogin ;;
  if failed result then ret result else
  (* 2. run docker build *)
  result <- spawn W (buildCall p dockerfilePath image) ;;
  if failed result then ret result else
  (* 3. run docker push *)
  result <- dockerPush image p ;;
  if failed result then ret result else
  (* 4. create image link *)
  linkImage sdmGoal ctx image result.

End WithWorld.

End ExecuteDockerBuild.

(** ** doDockerRun *)

(** The executor of the docker-run goal (lib/build/DockerExec.ts): builder
    probe, registry discovery, [docker run] and image link.  The login and
    the computation of the image names are commented out in the source and
    so are absent here: the result before the dispatch is the literal
    [{code: 0}] and [images] is the empty array. *)
Module DockerExec.

Inductive Builder : Type := docker | kaniko.

Module DockerRegistry.
Record t : Type := mk {
  registry : string;
  user : option string;
  password : option string;
  label : option string;
  display : option bool
}.
End DockerRegistry.

(** The [registry] option: one registry given as a string, or a list of
    registry objects. *)
Inductive RegistryOption : Type :=
| RegistryString (s : string)
| RegistryList (l : list DockerRegistry.t).

(** Modelled from the spec: the declaration of [DockerOptions] this file
    imports from ./DockerBuild is not among the sources.  The fields are
    those the spec lists for BuildOptions and [DockerOptionsPlus] adds
    ([programArgs]); the record is the options after the defaults are
    merged, so the three list and path fields are defined, while a
    [builder] outside "docker" and "kaniko" is [None].  The Dockerfile
    finder and the image name creator are never read by this executor and
    are left out. *)
Record DockerOptionsPlus : Type := mkOptions {
  push : option bool;
  registry : option RegistryOption;
  user : option string;
  password : option string;
  builder : option Builder;
  builderArgs : list string;
  builderPath : string;
  config : option string;
  programArgs : list string
}.

Record ProjectAwareGoalInvocation : Type := mkInvocation {
  goalEvent : SdmGoalEvent;
  context : HandlerContext;
  project : Project
}.

Definition setRegistry (o : DockerOptionsPlus) (r : option RegistryOption)
  : DockerOptionsPlus :=
  {| push := push o;
     registry := r;
     user := user o;
     password := password o;
     builder := builder o;
     builderArgs := builderArgs o;
     builderPath := builderPath o;
     config := config o;
     programArgs := programArgs o |}.

(** [options.registry || []]: [undefined] and the empty string give the
    empty array. *)
Definition registryOrEmpty (r : option RegistryOption) : RegistryOption :=
  match r with
  | None => RegistryList []
  | Some (RegistryString EmptyString) => RegistryList []
  | Some v => v
  end.

(** An element of what lodash's [toArray] returns: a registry object of
    the list, or one character of the string. *)
Inductive Elem : Type :=
| CharElem (c : ascii)
| RegistryElem (r : DockerRegistry.t).

Definition toArray (v : RegistryOption) : list Elem :=
  match v with
  | RegistryString s => map CharElem (list_ascii_of_string s)
  | RegistryList l => map RegistryElem l
  end.

(** [r => !!r.user && !!r.password]; a character has neither field. *)
Definition hasCredentials (e : Elem) : bool :=
  match e with
  | RegistryElem r =>
      JS.truthy (DockerRegistry.user r)
      && JS.truthy (DockerRegistry.password r)
  | CharElem _ => false
  end.

Definition images : list string := [].

Definition dockerfilePath : string := "".

Definition builderUnavailable (cmd : string) : string :=
  ("Configured Docker image builder '" ++ cmd ++ "' is not available")%string.

Definition kanikoUnimplemented : string := "runWithKaniko unimplemented.".

Definition probeCall (cmd : string) (probeArgs : list string) : SpawnCall :=
  {| api := SpawnLog; command := cmd; args := probeArgs;
     cwd := None; env_DOCKER_CONFIG := None |}.

Section WithWorld.
Variable W : World.

(** [mergeOptions(options, {}, path)] of the SDM: the options overlaid
    with what the configuration holds under the path; a fresh object. *)
Variable mergeOptions : DockerOptionsPlus -> string -> DockerOptionsPlus.

Definition checkIsBuilderAvailable (cmd : string)
           (probeArgs : list string) : M DockerOptionsPlus unit :=
  tryCatch
    (spawn W (probeCall cmd probeArgs) ;;; ret tt)
    (fun _ => throw (builderUnavailable cmd)).

(** The loop of [readRegistries] over the providers the graph
    returned. *)
Fixpoint readProviders (providers : list RegistryProvider)
         (registries : list DockerRegistry.t)
  : M DockerOptionsPlus (list DockerRegistry.t) :=
  match providers with
  | [] => ret registries
  | dockerRegistry :: rest =>
      credential <- queryPasswordById W (credentialId dockerRegistry) ;;
      (* Strip out the protocol *)
      host <- await (urlHost W (url dockerRegistry)) ;;
      match credential with
      | [] => throw "TypeError: Cannot read property 'owner' of undefined"
      | first :: _ =>
          readProviders rest
            (registries ++
             [ {| DockerRegistry.registry := host;
                  DockerRegistry.user := Some (ownerLogin first);
                  DockerRegistry.password := Some (secret first);
                  DockerRegistry.label := Some (providerName dockerRegistry);
                  DockerRegistry.display := Some false |} ])
      end
  end.

Definition readRegistries : M DockerOptionsPlus (list DockerRegistry.t) :=
  dockerRegistries <- queryProviders W ;;
  match dockerRegistries with
  | Some (Some providers) => readProviders providers []
  | _ => ret []
  end.

Definition dockerConfigPath (o : DockerOptionsPlus)
           (goalEvent : SdmGoalEvent) : option string :=
  if existsb hasCredentials (toArray (registryOrEmpty (registry o))) then
    Some (pathJoin W (homedir W) ".docker")
  else if JS.truthy (config o) then
    Some (pathJoin W (homedir W) (".docker-" ++ goalSetId goalEvent)%string)
  else
    None.

Definition runCall (o : DockerOptionsPlus) (goalEvent : SdmGoalEvent)
  : SpawnCall :=
  {| api := GiSpawn; command := "docker";
     args := ["run"] ++ builderArgs o ++ [builderPath o] ++ programArgs o;
     cwd := None;
     env_DOCKER_CONFIG := Some (dockerConfigPath o goalEvent) |}.

Definition runWithDocker (gi : ProjectAwareGoalInvocation)
  : M DockerOptionsPlus ExecuteGoalResult :=
  optsToUse <- getOptions ;;
  result <- spawn W (runCall optsToUse (goalEvent gi)) ;;
  if failed result then ret result else ret result.

(** The [return { code: 99 }] after the [throw] is never reached. *)
Definition runWithKaniko (images : list string) (imageNames : list string)
           (dockerfilePath : string) (gi : ProjectAwareGoalInvocation)
  : M DockerOptionsPlus ExecuteGoalResult :=
  throw kanikoUnimplemented.

(** The [switch] on the builder at the head of [doDockerRun]. *)
Definition checkBuilder : M DockerOptionsPlus unit :=
  optsToUse <- getOptions ;;
  match builder optsToUse with
  | Some docker => checkIsBuilderAvailable "docker" ["help"]
  | Some kaniko => checkIsBuilderAvailable "/kaniko/executor" ["--help"]
  | None => ret tt
  end.

(** [!optsToUse.config && toArray(optsToUse.registry || []).length === 0] *)
Definition noRegistryConfigured (o : DockerOptionsPlus) : bool :=
  negb (JS.truthy (config o))
  && (List.length (toArray (registryOrEmpty (registry o))) =? 0)%nat.

(** Check the graph for registries if we don't have any configured. *)
Definition discoverRegistries : M DockerOptionsPlus unit :=
  optsToUse <- getOptions ;;
  if noRegistryConfigured optsToUse then
    registries <- readRegistries ;;
    setOptions (setRegistry optsToUse (Some (RegistryList registries)))
  else
    ret tt.

(** 4. create image link *)
Definition linkImage (gi : ProjectAwareGoalInvocation)
           (result : ExecuteGoalResult)
  : M DockerOptionsPlus ExecuteGoalResult :=
  linked <- postLink W (owner (repo (goalEvent gi)))
                     (repoName (repo (goalEvent gi)))
                     (sha (goalEvent gi)) (nth_error images 0)
                     (workspaceId (context gi)) ;;
  if linked : bool
  then ret {| code := code result; message := message result |}
  else ret imageLinkFailed.

(** Everything before the builder dispatch: the merge, the probe and
    the registry discovery. *)
Definition prepare (options : DockerOptionsPlus)
  : M DockerOptionsPlus unit :=
  setOptions (mergeOptions options "docker.build") ;;;
  checkBuilder ;;;
  discoverRegistries.

(** The body [doWithProject] runs.  [optsToUse] is the object in the
    state; the result before the dispatch is the literal [{code: 0}]. *)
Definition doDockerRun (options : DockerOptionsPlus)
           (gi : ProjectAwareGoalInvocation)
  : M DockerOptionsPlus ExecuteGoalResult :=
  prepare options ;;;
  optsToUse <- getOptions ;;
  (* 1. run docker login *)
  let result := {| code := 0; message := None |} in
  if failed result then ret result else
  match builder optsToUse with
  | Some docker =>
      result <- runWithDocker gi ;;
      if failed result then ret result else linkImage gi result
  | Some kaniko =>
      result <- runWithKaniko images [] dockerfilePath gi ;;
      if failed result then ret result else linkImage gi result
  | None => linkImage gi result
  end.

End WithWorld.

End DockerExec.

(** ** Sample runtimes and invocations *)

Module Sample.

(** A runtime in which every process ends with the exit code [exitCode]
    gives for it, the image link answers [linked], the project has no
    configuration file (the default handed to the lookup comes back), the
    graph knows no registry, and paths are joined with a slash. *)
Definition world (exitCode : SpawnCall -> Z) (linked local : bool) : World :=
  {| spawnResult := fun _ call =>
       Ok {| code := exitCode call; message := None |};
     postLinkImageWebhook := fun _ _ _ _ _ _ => Ok linked;
     isInLocalMode := local;
     projectConfigurationValue := fun _ _ defaultValue => defaultValue;
     readSdmVersion := fun _ _ _ _ _ => Ok "0.1.0-master.20190903";
     queryDockerRegistryProvider := fun _ => Ok (Some (Some []));
     queryPassword := fun _ _ => Ok [];
     urlHost := fun u => Ok u;
     homedir := "/home/sdm";
     pathJoin := fun dir file => (dir ++ "/" ++ file)%string |}.

Definition allExitZero : SpawnCall -> Z := fun _ => 0.

(** Exit code 2 for the process whose first argument is [subcommand]. *)
Definition failing (subcommand : string) : SpawnCall -> Z :=
  fun call =>
    match args call with
    | first :: _ => if String.eqb first subcommand then 2 else 0
    | [] => 0
    end.

(** A runtime whose graph client rejects the registry query. *)
Definition graphDown : World :=
  {| spawnResult := fun _ _ => Ok Success;
     postLinkImageWebhook := fun _ _ _ _ _ _ => Ok true;
     isInLocalMode := false;
     projectConfigurationValue := fun _ _ defaultValue => defaultValue;
     readSdmVersion := fun _ _ _ _ _ => Ok "0.1.0-master.20190903";
     queryDockerRegistryProvider := fun _ => Throw "GraphQL request failed";
     queryPassword := fun _ _ => Ok [];
     urlHost := fun u => Ok u;
     homedir := "/home/sdm";
     pathJoin := fun dir file => (dir ++ "/" ++ file)%string |}.

(** A runtime without the builder executable: starting it fails. *)
Definition noBuilder : World :=
  {| spawnResult := fun _ _ => Throw "spawn ENOENT";
     postLinkImageWebhook := fun _ _ _ _ _ _ => Ok true;
     isInLocalMode := false;
     projectConfigurationValue := fun _ _ defaultValue => defaultValue;
     readSdmVersion := fun _ _ _ _ _ => Ok "0.1.0-master.20190903";
     queryDockerRegistryProvider := fun _ => Ok (Some (Some []));
     queryPassword := fun _ _ => Ok [];
     urlHost := fun u => Ok u;
     homedir := "/home/sdm";
     pathJoin := fun dir file => (dir ++ "/" ++ file)%string |}.

Definition project : Project := {| name := "svc"; baseDir := "/work/svc" |}.

Definition goal (goalSet : string) : SdmGoalEvent :=
  {| repo := {| owner := "acme"; repoName := "svc"; providerId := "gh" |};
     sha := "9f2c1e7"; branch := "master"; goalSetId := goalSet |}.

Definition ctx : HandlerContext := {| workspaceId := "T1" |}.

Definition invocation : GoalInvocation :=
  {| sdmGoal := goal "gs-1"; context := ctx |}.

(** Build options with credentials for a private registry. *)
Definition buildOptions (pushFlag : option bool)
  : ExecuteDockerBuild.DockerOptions :=
  {| ExecuteDockerBuild.push := pushFlag;
     ExecuteDockerBuild.registry := Some "registry.acme.io";
     ExecuteDockerBuild.user := Some "ci";
     ExecuteDockerBuild.password := Some "s3cret";
     ExecuteDockerBuild.dockerfileFinder := None |}.

(** Build options without credentials. *)
Definition anonymousOptions (pushFlag : option bool)
  : ExecuteDockerBuild.DockerOptions :=
  {| ExecuteDockerBuild.push := pushFlag;
     ExecuteDockerBuild.registry := None;
     ExecuteDockerBuild.user := None;
     ExecuteDockerBuild.password := None;
     ExecuteDockerBuild.dockerfileFinder := None |}.

Definition start {O} (o : O) : St O := {| trace := []; options := o |}.

Definition runInvocation (goalSet : string)
  : DockerExec.ProjectAwareGoalInvocation :=
  {| DockerExec.goalEvent := goal goalSet;
     DockerExec.context := ctx;
     DockerExec.project := project |}.

(** The defaults of [DefaultDockerOptionsPlus] with the given builder,
    registry and config. *)
Definition runOptions (b : option DockerExec.Builder)
           (r : option DockerExec.RegistryOption) (cfg : option string)
  : DockerExec.DockerOptionsPlus :=
  {| DockerExec.push := None;
     DockerExec.registry := r;
     DockerExec.user := None;
     DockerExec.password := None;
     DockerExec.builder := b;
     DockerExec.builderArgs := [];
     DockerExec.builderPath := "hello-world";
     DockerExec.config := cfg;
     DockerExec.programArgs := [] |}.

Definition hub : DockerExec.DockerRegistry.t :=
  {| DockerExec.DockerRegistry.registry := "registry.acme.io";
     DockerExec.DockerRegistry.user := Some "ci";
     DockerExec.DockerRegistry.password := Some "s3cret";
     DockerExec.DockerRegistry.label := None;
     DockerExec.DockerRegistry.display := None |}.

(** No configuration under "docker.build": the merge is a copy. *)
Definition noOverlay
  : DockerExec.DockerOptionsPlus -> string -> DockerExec.DockerOptionsPlus :=
  fun o _ => o.

End Sample.

(** ** Vocabulary of the properties *)

Definition isLink (e : Event) : bool :=
  match e with
  | PostLinkImage _ _ _ _ _ => true
  | _ => false
  end.

Definition isSpawn (e : Event) : bool :=
  match e with
  | Spawned _ => true
  | _ => false
  end.

Definition isQuery (e : Event) : bool :=
  match e with
  | GraphQuery _ _ => true
  | _ => false
  end.

(** From [s] to [s'] the trace only grew, by events that satisfy [P]. *)
Definition grows {O} (P : Event -> Prop) (s s' : St O) : Prop :=
  exists added, trace s' = trace s ++ added /\ Forall P added.

(** The same, and the options object is as it was. *)
Definition frames {O} (P : Event -> Prop) (s s' : St O) : Prop :=
  options s' = options s /\ grows P s s'.

(** Whatever the outcome of [m], its final state is related to its first
    by [R]. *)
Definition Keeps {O A} (R : St O -> St O -> Prop) (m : M O A) : Prop :=
  forall s, R s (snd (m s)).

(** A string has a character outside A-Z, a-z, 0-9. *)
Definition hasCharOutsideAlnum (r : string) : Prop :=
  exists c, In c (list_ascii_of_string r) /\ JS.isAlnum c = false.

(** An image link, if the event is one, carries no image. *)
Definition linksNoImage (e : Event) : Prop :=
  match e with
  | PostLinkImage _ _ _ image _ => image = None
  | _ => True
  end.

(** The options [o'] are [o], or [o] with the default of [dockerPush] put
    in place of an undefined [push]. *)
Definition onlyPushDefaulted (W : World)
           (o o' : ExecuteDockerBuild.DockerOptions) : Prop :=
  o' = o
  \/ (ExecuteDockerBuild.push o = None
      /\ o' = ExecuteDockerBuild.setPush o (Some (negb (isInLocalMode W)))).

(** The options [o'] are the merged ones, or the merged ones with the
    registries read from the graph where none was configured. *)
Definition onlyRegistryDiscovered
           (merged o' : DockerExec.DockerOptionsPlus) : Prop :=
  o' = merged
  \/ (DockerExec.noRegistryConfigured merged = true
      /\ exists registries,
           o' = DockerExec.setRegistry merged
                  (Some (DockerExec.RegistryList registries))).

(** The stages of [executeDockerBuild] that run a command. *)
Inductive BuildStage : Type := Login | Build | Push.

(** [StageFails W p dockerfilePath image s stage r s']: started in [s],
    the stages before [stage] ended with code 0 and [stage] ended in state
    [s'] with the result [r], whose code is not 0. *)
Inductive StageFails (W : World) (p : Project) (dockerfilePath image : string)
          (s : St ExecuteDockerBuild.DockerOptions)
  : BuildStage -> ExecuteGoalResult -> St ExecuteDockerBuild.DockerOptions ->
    Prop :=
| login_fails r s1 :
    ExecuteDockerBuild.dockerLogin W s = (Ok r, s1) ->
    code r <> 0 ->
    StageFails W p dockerfilePath image s Login r s1
| build_fails r1 s1 r s2 :
    ExecuteDockerBuild.dockerLogin W s = (Ok r1, s1) ->
    code r1 = 0 ->
    spawn W (ExecuteDockerBuild.buildCall p dockerfilePath image) s1
    = (Ok r, s2) ->
    code r <> 0 ->
    StageFails W p dockerfilePath image s Build r s2
| push_fails r1 s1 r2 s2 r s3 :
    ExecuteDockerBuild.dockerLogin W s = (Ok r1, s1) ->
    code r1 = 0 ->
    spawn W (ExecuteDockerBuild.buildCall p dockerfilePath image) s1
    = (Ok r2, s2) ->
    code r2 = 0 ->
    ExecuteDockerBuild.dockerPush W image p s2 = (Ok r, s3) ->
    code r <> 0 ->
    StageFails W p dockerfilePath image s Push r s3.

(** ** DockerBuild.with *)

(** The registration of the docker-build goal (lib/docker/DockerBuild.ts)
    and the executor of the fulfillment [with] adds for it.  [with] builds
    [{ goalExecutor: executeDockerBuild(creator, registration.options),
    name, progressReporter, ...registration }]: the creator is the one of
    the registration or, when it has none, the default one, and the
    registration is spread last, so a [goalExecutor] property of the
    registration itself replaces the executor built here. *)
Module DockerBuild.

(** What runs for one invocation, on the cloned project. *)
Definition ExecuteGoal : Type :=
  GoalInvocation -> Project ->
  M ExecuteDockerBuild.DockerOptions ExecuteGoalResult.

(** [goalExecutor], of [Partial<ImplementationRegistration>]: [None] when
    the registration has no such property, [Some v] when it has one, [v]
    being its value, possibly [undefined]. *)
Record DockerBuildRegistration : Type := mkRegistration {
  options : ExecuteDockerBuild.DockerOptions;
  imageNameCreator : option ExecuteDockerBuild.DockerImageNameCreator;
  goalExecutor : option (option ExecuteGoal)
}.

(** The [goalExecutor] of the fulfillment. *)
Definition fulfillmentExecutor (W : World)
           (registration : DockerBuildRegistration) : option ExecuteGoal :=
  match goalExecutor registration with
  | Some own => own
  | None =>
      Some (ExecuteDockerBuild.executeDockerBuild W
              (match imageNameCreator registration with
               | Some creator => creator
               | None => ExecuteDockerBuild.DefaultDockerImageNameCreator W
               end))
  end.

End DockerBuild.

(** ** More sample runtimes *)

Module SampleGraph.

Definition providers : list RegistryProvider :=
  [ {| url := "https://registry.acme.io"; providerName := "acme";
       credentialId := "cred-1" |};
    {| url := "https://eu.gcr.io"; providerName := "gcr";
       credentialId := "cred-2" |} ].

(** The host of the sample URLs: what follows "https://". *)
Definition hostOf (u : string) : string :=
  substring 8 (String.length u - 8) u.

Definition passwordOf (id : string) : PasswordEntry :=
  {| ownerLogin := "ci"; secret := ("secret-of-" ++ id)%string |}.

(** A runtime whose graph knows the two [providers] and a password for
    every credential id. *)
Definition world : World :=
  {| spawnResult := fun _ _ => Ok Success;
     postLinkImageWebhook := fun _ _ _ _ _ _ => Ok true;
     isInLocalMode := false;
     projectConfigurationValue := fun _ _ defaultValue => defaultValue;
     readSdmVersion := fun _ _ _ _ _ => Ok "0.1.0-master.20190903";
     queryDockerRegistryProvider := fun _ => Ok (Some (Some providers));
     queryPassword := fun _ id => Ok [passwordOf id];
     urlHost := fun u => Ok (hostOf u);
     homedir := "/home/sdm";
     pathJoin := fun dir file => (dir ++ "/" ++ file)%string |}.

(** The same graph, but the credential "cred-2" has no password entry. *)
Definition missingPassword : World :=
  {| spawnResult := fun _ _ => Ok Success;
     postLinkImageWebhook := fun _ _ _ _ _ _ => Ok true;
     isInLocalMode := false;
     projectConfigurationValue := fun _ _ defaultValue => defaultValue;
     readSdmVersion := fun _ _ _ _ _ => Ok "0.1.0-master.20190903";
     queryDockerRegistryProvider := fun _ => Ok (Some (Some providers));
     queryPassword := fun _ id =>
       if String.eqb id "cred-2" then Ok [] else Ok [passwordOf id];
     urlHost := fun u => Ok (hostOf u);
     homedir := "/home/sdm";
     pathJoin := fun dir file => (dir ++ "/" ++ file)%string |}.

(** A runtime in which the version service is down and the image link
    is rejected. *)
Definition servicesDown : World :=
  {| spawnResult := fun _ _ => Ok Success;
     postLinkImageWebhook := fun _ _ _ _ _ _ => Throw "webhook unreachable";
     isInLocalMode := true;
     projectConfigurationValue := fun _ _ defaultValue => defaultValue;
     readSdmVersion := fun _ _ _ _ _ => Throw "no version for this commit";
     queryDockerRegistryProvider := fun _ => Ok None;
     queryPassword := fun _ _ => Ok [];
     urlHost := fun u => Ok (hostOf u);
     homedir := "/home/sdm";
     pathJoin := fun dir file => (dir ++ "/" ++ file)%string |}.

(** Probes and runs that start and exit with 127. *)
Definition exit127 : World :=
  Sample.world (fun _ => 127) true false.

End SampleGraph.

(** ** Vocabulary of the further properties *)

(** A log line, or a [docker] process started with [spawnAndWatch]. *)
Definition dockerOrLog (e : Event) : Prop :=
  match e with
  | LogWrite _ => True
  | Spawned call => command call = "docker" /\ api call = SpawnAndWatch
  | _ => False
  end.

(** From [s] to [s'] there were log lines and docker processes, and then
    at most one image link, as the last event. *)
Definition linkComesLast {O} (s s' : St O) : Prop :=
  exists before links,
    trace s' = (trace s ++ before) ++ links
    /\ Forall dockerOrLog before
    /\ (links = []
        \/ exists o n sh image ws,
             links = [PostLinkImage o n sh (Some image) ws]).

(** The registry object [readRegistries] makes of a provider, the host of
    its URL and the first password entry of its credential. *)
Definition discovered (host : string) (first : PasswordEntry)
           (provider : RegistryProvider) : DockerExec.DockerRegistry.t :=
  {| DockerExec.DockerRegistry.registry := host;
     DockerExec.DockerRegistry.user := Some (ownerLogin first);
     DockerExec.DockerRegistry.password := Some (secret first);
     DockerExec.DockerRegistry.label := Some (providerName provider);
     DockerExec.DockerRegistry.display := Some false |}.

(** The password query [readRegistries] sends for a provider. *)
Definition passwordQuery (provider : RegistryProvider) : Event :=
  GraphQuery "Password" (Some (credentialId provider)).

(** The graph answers for every provider of the list, whatever happened
    before: [first] is the first password entry of its credential and
    [host] the host of its URL. *)
Definition answersFor (W : World) (providers : list RegistryProvider)
           (first : RegistryProvider -> PasswordEntry)
           (host : RegistryProvider -> string) : Prop :=
  forall d, In d providers ->
    (forall t, exists more,
        queryPassword W t (credentialId d) = Ok (first d :: more))
    /\ urlHost W (url d) = Ok (host d).

(** A string without a slash. *)
Definition noSlash (a : string) : Prop :=
  ~ In "/"%char (list_ascii_of_string a).

(** The name of one path component: not empty, not "." or "..", and
    without a slash. *)
Definition singleName (a : string) : Prop :=
  a <> "" /\ a <> "." /\ a <> ".." /\ noSlash a.

(** Joined to the home directory, different names of one component give
    different paths. *)
Definition joinKeepsNamesApart (W : World) : Prop :=
  forall a b,
    singleName a -> singleName b ->
    pathJoin W (homedir W) a = pathJoin W (homedir W) b -> a = b.

(** In the invocation, the process started right after the probe is
    [docker run <builderArgs> <builderPath> <programArgs>] of the merged
    options, with [d] as its DOCKER_CONFIG. *)
Definition runsAfterProbeWith (W : World)
           (mergeOptions : DockerExec.DockerOptionsPlus -> string ->
                           DockerExec.DockerOptionsPlus)
           (o : DockerExec.DockerOptionsPlus)
           (gi : DockerExec.ProjectAwareGoalInvocation)
           (s : St DockerExec.DockerOptionsPlus) (d : option string) : Prop :=
  let merged := mergeOptions o "docker.build" in
  exists rest,
    trace (snd (DockerExec.doDockerRun W mergeOptions o gi s))
    = trace s
      ++ Spawned (DockerExec.probeCall "docker" ["help"])
         :: Spawned {| api := GiSpawn; command := "docker";
                       args := ["run"] ++ DockerExec.builderArgs merged
                               ++ [DockerExec.builderPath merged]
                               ++ DockerExec.programArgs merged;
                       cwd := None;
                       env_DOCKER_CONFIG := Some d |}
         :: rest.

(** * Properties *)

(** ** Exit codes and strings *)

Lemma failed_true (r : ExecuteGoalResult) : failed r = true <-> code r <> 0.
Proof.
  unfold failed. destruct (Z.eqb_spec (code r) 0) as [E | E]; simpl.
  - split; [discriminate | intros H; now elim H].
  - split; [intros _; exact E | reflexivity].
Qed.

Lemma failed_false (r : ExecuteGoalResult) : failed r = false <-> code r = 0.
Proof.
  unfold failed. destruct (Z.eqb_spec (code r) 0) as [E | E]; simpl.
  - split; [intros _; exact E | reflexivity].
  - split; [discriminate | intros H; now elim E].
Qed.

(** The test of the regular expression finds a character outside the
    class exactly when the string has one. *)
Lemma testNonAlnumString_spec (s : string) :
  JS.testNonAlnumString s = true <->
  exists c, In c (list_ascii_of_string s) /\ JS.isAlnum c = false.
Proof.
  induction s as [| a s IH]; simpl.
  - split; [discriminate | intros [c [[] _]]].
  - rewrite orb_true_iff, negb_true_iff, IH. split.
    + intros [H | [c [Hin Hc]]].
      * exists a. auto.
      * exists c. auto.
    + intros [c [[-> | Hin] Hc]].
      * now left.
      * right. now exists c.
Qed.

Lemma truthy_Some (v : option string) :
  JS.truthy v = true -> exists s, v = Some s /\ s <> "".
Proof.
  destruct v as [[| c s] |]; simpl; try discriminate.
  intros _. exists (String c s). split; [reflexivity | discriminate].
Qed.

Lemma orTrue_always (v : option bool) : JS.orTrue v = true.
Proof. now destruct v as [[|] |]. Qed.

(** ** What a computation leaves alone *)

Lemma grows_refl {O} P (s : St O) : grows P s s.
Proof. exists []. split; [now rewrite app_nil_r | constructor]. Qed.

Lemma grows_trans {O} P (s1 s2 s3 : St O) :
  grows P s1 s2 -> grows P s2 s3 -> grows P s1 s3.
Proof.
  intros [d1 [E1 F1]] [d2 [E2 F2]]. exists (d1 ++ d2). split.
  - now rewrite E2, E1, app_assoc.
  - apply Forall_app. now split.
Qed.

Lemma frames_refl {O} P (s : St O) : frames P s s.
Proof. split; [reflexivity | apply grows_refl]. Qed.

Lemma frames_trans {O} P (s1 s2 s3 : St O) :
  frames P s1 s2 -> frames P s2 s3 -> frames P s1 s3.
Proof.
  intros [E1 G1] [E2 G2]. split.
  - congruence.
  - eapply grows_trans; eassumption.
Qed.

Lemma grows_emit {O} (P : Event -> Prop) e (s : St O) :
  P e -> grows P s (emit e s).
Proof. intros H. exists [e]. split; [reflexivity | now repeat constructor]. Qed.

Lemma frames_emit {O} (P : Event -> Prop) e (s : St O) :
  P e -> frames P s (emit e s).
Proof. intros H. split; [reflexivity | now apply grows_emit]. Qed.

Lemma grows_weaken {O} (P Q : Event -> Prop) (s s' : St O) :
  (forall e, P e -> Q e) -> grows P s s' -> grows Q s s'.
Proof.
  intros H [d [E F]]. exists d. split; [exact E |].
  eapply Forall_impl; eassumption.
Qed.

Section Keeping.
Context {O : Type}.
Variable R : St O -> St O -> Prop.
Hypothesis R_refl : forall s, R s s.
Hypothesis R_trans : forall s1 s2 s3, R s1 s2 -> R s2 s3 -> R s1 s3.

Lemma Keeps_ret {A} (a : A) : Keeps R (ret a).
Proof. intros s. apply R_refl. Qed.

Lemma Keeps_throw {A} e : Keeps R (@throw O A e).
Proof. intros s. apply R_refl. Qed.

Lemma Keeps_await {A} (o : Outcome A) : Keeps R (await o).
Proof. intros s. apply R_refl. Qed.

Lemma Keeps_getOptions : Keeps R (@getOptions O).
Proof. intros s. apply R_refl. Qed.

Lemma Keeps_bind {A B} (m : M O A) (k : A -> M O B) :
  Keeps R m -> (forall a, Keeps R (k a)) -> Keeps R (bind m k).
Proof.
  intros Hm Hk s. unfold bind. specialize (Hm s).
  destruct (m s) as [[a | e] s1]; simpl in *.
  - eapply R_trans; [exact Hm | apply Hk].
  - exact Hm.
Qed.

Lemma Keeps_tryCatch {A} (m : M O A) (h : string -> M O A) :
  Keeps R m -> (forall e, Keeps R (h e)) -> Keeps R (tryCatch m h).
Proof.
  intros Hm Hh s. unfold tryCatch. specialize (Hm s).
  destruct (m s) as [[a | e] s1]; simpl in *.
  - exact Hm.
  - eapply R_trans; [exact Hm | apply Hh].
Qed.

End Keeping.

Section KeepingEvents.
Context {O : Type} (W : World) (P : Event -> Prop).

Lemma Keeps_write msg : P (LogWrite msg) -> Keeps (@frames O P) (write msg).
Proof. intros H s. now apply frames_emit. Qed.

Lemma Keeps_spawn call :
  P (Spawned call) -> Keeps (@frames O P) (spawn W call).
Proof. intros H s. now apply frames_emit. Qed.

Lemma Keeps_postLink o n sh img ws :
  P (PostLinkImage o n sh img ws) ->
  Keeps (@frames O P) (postLink W o n sh img ws).
Proof. intros H s. now apply frames_emit. Qed.

Lemma Keeps_queryProviders :
  P (GraphQuery "DockerRegistryProvider" None) ->
  Keeps (@frames O P) (queryProviders W).
Proof. intros H s. now apply frames_emit. Qed.

Lemma Keeps_queryPasswordById id :
  P (GraphQuery "Password" (Some id)) ->
  Keeps (@frames O P) (queryPasswordById W id).
Proof. intros H s. now apply frames_emit. Qed.

Lemma Keeps_setOptions (o : O) : Keeps (@grows O P) (setOptions o).
Proof.
  intros s. exists []. split; [simpl; now rewrite app_nil_r | constructor].
Qed.

Lemma Keeps_frames_grows {A} (m : M O A) :
  Keeps (@frames O P) m -> Keeps (@grows O P) m.
Proof. intros H s. apply H. Qed.

End KeepingEvents.

(** Steps through a computation built from the monad's operations, leaving
    the side conditions on the events. *)
Ltac keeps_frames :=
  repeat first
    [ apply (Keeps_bind _ (frames_trans _)); [| intro]
    | apply (Keeps_tryCatch _ (frames_trans _)); [| intro]
    | apply (Keeps_ret _ (frames_refl _))
    | apply (Keeps_throw _ (frames_refl _))
    | apply (Keeps_await _ (frames_refl _))
    | apply (Keeps_getOptions _ (frames_refl _))
    | apply Keeps_write
    | apply Keeps_spawn
    | apply Keeps_postLink
    | apply Keeps_queryProviders
    | apply Keeps_queryPasswordById
    | match goal with
      | |- Keeps _ (if ?b then _ else _) => destruct b
      | |- Keeps _ (match ?x with _ => _ end) => destruct x
      end ].

(** ** The stages of executeDockerBuild *)

Section BuildStages.
Import ExecuteDockerBuild.
Variable W : World.

(** [dockerLogin], run from any state. *)
Lemma dockerLogin_run (s : St DockerOptions) :
  dockerLogin W s =
  if JS.truthy (user (options s)) && JS.truthy (password (options s))
  then (spawnResult W (trace s ++ [LogWrite loginNotice])
          (loginCall (options s)),
        emit (Spawned (loginCall (options s)))
             (emit (LogWrite loginNotice) s))
  else (Ok Success, emit (LogWrite loginSkipNotice) s).
Proof.
  unfold dockerLogin, bind, getOptions.
  destruct (JS.truthy (user (options s)) && JS.truthy (password (options s)));
    reflexivity.
Qed.

(** [dockerPush], run from any state. *)
Lemma dockerPush_run image project (s : St DockerOptions) :
  let o := pushDefaulted W (options s) in
  let s0 := mkSt (trace s) o in
  dockerPush W image project s =
  if projectConfigurationValue W "docker.push.enabled" project
       (JS.orTrue (push o))
  then
    if negb (JS.truthy (user o)) || negb (JS.truthy (password o))
    then (Ok {| code := 1; message := Some pushMissingMessage |},
          emit (LogWrite pushMissingMessage) s0)
    else (spawnResult W (trace s) (pushCall image),
          emit (Spawned (pushCall image)) s0)
  else (Ok Success, emit (LogWrite pushSkipNotice) s0).
Proof.
  unfold dockerPush, pushDefaulted, bind, getOptions.
  destruct s as [t o]; simpl.
  destruct (push o) as [b |] eqn:E; simpl; rewrite ?E;
    repeat match goal with
           | |- context [if ?c then _ else _] => destruct c
           end; reflexivity.
Qed.

Lemma dockerLogin_keeps (P : Event -> Prop) :
  (forall msg, P (LogWrite msg)) -> (forall call, P (Spawned call)) ->
  Keeps (frames P) (dockerLogin W).
Proof. intros Hl Hs. unfold dockerLogin. keeps_frames; auto. Qed.

Lemma linkImage_keeps (P : Event -> Prop) sdmGoal ctx image result :
  (forall o n sh img ws, P (PostLinkImage o n sh img ws)) ->
  Keeps (frames P) (linkImage W sdmGoal ctx image result).
Proof. intros Hl. unfold linkImage. keeps_frames; auto. Qed.

(** [dockerPush] writes to the log or starts a process, and leaves every
    field but [push] alone. *)
Lemma dockerPush_grows (P : Event -> Prop) image project s :
  (forall msg, P (LogWrite msg)) -> (forall call, P (Spawned call)) ->
  grows P s (snd (dockerPush W image project s))
  /\ options (snd (dockerPush W image project s)) = pushDefaulted W (options s).
Proof.
  intros Hl Hs. rewrite dockerPush_run. cbv zeta.
  repeat match goal with
         | |- context [if ?c then _ else _] => destruct c
         end; simpl; (split; [| reflexivity]);
    eexists [_]; (split; [reflexivity | repeat constructor; auto]).
Qed.

End BuildStages.

Section BuildExecutor.
Import ExecuteDockerBuild.
Variable W : World.

(** Once the image name and the Dockerfile path are there,
    [executeDockerBuild] is the chain of its four steps. *)
Lemma executeDockerBuild_steps creator gi p s imageName dockerfilePath :
  creator p (sdmGoal gi) (options s) (context gi) = Ok imageName ->
  findDockerfile (options s) p = Ok dockerfilePath ->
  executeDockerBuild W creator gi p s =
  (result <- dockerLogin W ;;
   if failed result then ret result else
   result <- spawn W (buildCall p dockerfilePath (imageOf imageName)) ;;
   if failed result then ret result else
   result <- dockerPush W (imageOf imageName) p ;;
   if failed result then ret result else
   linkImage W (sdmGoal gi) (context gi) (imageOf imageName) result) s.
Proof.
  intros Hc Hf. unfold executeDockerBuild.
  unfold bind at 1. unfold getOptions at 1.
  unfold bind at 1. unfold await at 1. rewrite Hc.
  unfold bind at 1. unfold await at 1. rewrite Hf.
  reflexivity.
Qed.

(** A failing stage ends the invocation where the stage ended. *)
Lemma StageFails_final creator gi p s imageName dockerfilePath stage r s' :
  creator p (sdmGoal gi) (options s) (context gi) = Ok imageName ->
  findDockerfile (options s) p = Ok dockerfilePath ->
  StageFails W p dockerfilePath (imageOf imageName) s stage r s' ->
  executeDockerBuild W creator gi p s = (Ok r, s').
Proof.
  intros Hc Hf HS.
  rewrite (executeDockerBuild_steps _ _ _ _ _ _ Hc Hf).
  inversion HS; subst; unfold bind;
    repeat match goal with
           | H : ?m = (Ok _, _) |- context [?m] => rewrite H
           | H : code ?r <> 0 |- context [failed ?r] =>
               rewrite (proj2 (failed_true r) H)
           | H : code ?r = 0 |- context [failed ?r] =>
               rewrite (proj2 (failed_false r) H)
           end; reflexivity.
Qed.

(** Up to and including a failing stage there are log lines and
    processes only: no image link. *)
Lemma StageFails_no_link p dockerfilePath image s stage r s' :
  StageFails W p dockerfilePath image s stage r s' ->
  grows (fun e => isLink e = false) s s'.
Proof.
  set (P := fun e => isLink e = false).
  assert (HL : forall msg, P (LogWrite msg)) by reflexivity.
  assert (HS : forall call, P (Spawned call)) by reflexivity.
  pose proof (dockerLogin_keeps W P HL HS s) as Hlogin.
  intros H. inversion H; subst;
    match goal with
    | E : dockerLogin W s = _ |- _ => rewrite E in Hlogin; simpl in Hlogin
    end.
  - apply Hlogin.
  - eapply grows_trans; [apply Hlogin |].
    match goal with
    | E : spawn W _ _ = (_, ?t) |- grows _ _ ?t =>
        inversion E; subst; apply grows_emit; reflexivity
    end.
  - eapply grows_trans; [apply Hlogin |].
    match goal with
    | E : spawn W _ s1 = (_, _) |- _ => inversion E; subst
    end.
    apply (grows_trans P _ _ _
             (grows_emit P _ s1 (HS (buildCall p dockerfilePath image)))).
    match goal with
    | E : dockerPush W ?i ?q ?t = (_, _) |- _ =>
        pose proof (proj1 (dockerPush_grows W P i q t HL HS)) as Hp;
        rewrite E in Hp; exact Hp
    end.
Qed.

End BuildExecutor.

(** ** The stages of doDockerRun *)

Section RunStages.
Import DockerExec.
Variable W : World.
Variable mergeOptions : DockerOptionsPlus -> string -> DockerOptionsPlus.

(** The probe: one process; a failure to start it becomes the
    configuration error. *)
Lemma checkIsBuilderAvailable_run cmd probeArgs (s : St DockerOptionsPlus) :
  checkIsBuilderAvailable W cmd probeArgs s =
  (match spawnResult W (trace s) (probeCall cmd probeArgs) with
   | Ok _ => Ok tt
   | Throw _ => Throw (builderUnavailable cmd)
   end,
   emit (Spawned (probeCall cmd probeArgs)) s).
Proof.
  unfold checkIsBuilderAvailable, tryCatch, bind, spawn, throw, ret.
  destruct (spawnResult W (trace s) (probeCall cmd probeArgs)); reflexivity.
Qed.

Lemma runWithDocker_run gi (s : St DockerOptionsPlus) :
  runWithDocker W gi s =
  (spawnResult W (trace s) (runCall W (options s) (goalEvent gi)),
   emit (Spawned (runCall W (options s) (goalEvent gi))) s).
Proof.
  unfold runWithDocker, bind, getOptions, spawn, ret.
  destruct (spawnResult W (trace s) (runCall W (options s) (goalEvent gi)))
    as [r | e]; [destruct (failed r) |]; reflexivity.
Qed.

Lemma linkImage_run gi result (s : St DockerOptionsPlus) :
  linkImage W gi result s =
  (match postLinkImageWebhook W (trace s) (owner (repo (goalEvent gi)))
           (repoName (repo (goalEvent gi))) (sha (goalEvent gi))
           None (workspaceId (context gi)) with
   | Ok true => Ok {| code := code result; message := message result |}
   | Ok false => Ok imageLinkFailed
   | Throw e => Throw e
   end,
   emit (PostLinkImage (owner (repo (goalEvent gi)))
           (repoName (repo (goalEvent gi))) (sha (goalEvent gi))
           None (workspaceId (context gi))) s).
Proof.
  unfold linkImage, bind, postLink, ret. simpl.
  destruct (postLinkImageWebhook W (trace s) _ _ _ _ _) as [[|] | e];
    reflexivity.
Qed.

Section Events.
Variable P : Event -> Prop.
Hypothesis P_spawn : forall call, P (Spawned call).
Hypothesis P_query : forall q id, P (GraphQuery q id).

Lemma checkBuilder_keeps : Keeps (frames P) (checkBuilder W).
Proof.
  unfold checkBuilder, checkIsBuilderAvailable. keeps_frames; auto.
Qed.

Lemma readProviders_keeps providers registries :
  Keeps (frames P) (readProviders W providers registries).
Proof.
  revert registries. induction providers as [| d rest IH]; intros regs;
    simpl.
  - keeps_frames.
  - keeps_frames; auto.
Qed.

Lemma readRegistries_keeps : Keeps (frames P) (readRegistries W).
Proof.
  unfold readRegistries. keeps_frames; auto using readProviders_keeps.
Qed.

(** The discovery adds queries only; it either leaves the options
    alone or, when no registry is configured, assigns the registries
    it read to [registry]. *)
Lemma discoverRegistries_effect (s : St DockerOptionsPlus) :
  let s' := snd (discoverRegistries W s) in
  grows P s s'
  /\ (options s' = options s
      \/ (noRegistryConfigured (options s) = true
          /\ exists registries,
               options s'
               = setRegistry (options s) (Some (RegistryList registries)))).
Proof.
  unfold discoverRegistries, bind, getOptions. simpl.
  destruct (noRegistryConfigured (options s)) eqn:E.
  - pose proof (readRegistries_keeps s) as [Ho Hg].
    destruct (readRegistries W s) as [[regs | e] s1]; simpl in *.
    + split; [exact Hg |]. right. split; [reflexivity |].
      exists regs. reflexivity.
    + split; [exact Hg | now left].
  - split; [apply grows_refl | now left].
Qed.

Lemma runWithDocker_keeps gi : Keeps (frames P) (runWithDocker W gi).
Proof. unfold runWithDocker. keeps_frames; auto. Qed.

End Events.

(** What [prepare] does to the options and to the trace. *)
Lemma prepare_effect (P : Event -> Prop) o (s : St DockerOptionsPlus) :
  (forall call, P (Spawned call)) -> (forall q id, P (GraphQuery q id)) ->
  let merged := mergeOptions o "docker.build" in
  let s' := snd (prepare W mergeOptions o s) in
  grows P s s'
  /\ (options s' = merged
      \/ (noRegistryConfigured merged = true
          /\ exists registries,
               options s'
               = setRegistry merged (Some (RegistryList registries)))).
Proof.
  intros HS HQ. cbv zeta. unfold prepare, bind, setOptions. simpl.
  set (s0 := {| trace := trace s; options := mergeOptions o "docker.build" |}).
  assert (G0 : grows P s s0).
  { exists []. split; [simpl; now rewrite app_nil_r | constructor]. }
  pose proof (checkBuilder_keeps P HS s0) as [Ho Hg].
  destruct (checkBuilder W s0) as [[[] | e] s1]; simpl in *.
  - pose proof (discoverRegistries_effect P HQ s1) as [Hg' Ho'].
    cbv zeta in Hg', Ho'. rewrite Ho in Ho'. split.
    + eapply grows_trans; [exact G0 |].
      eapply grows_trans; [exact Hg | exact Hg'].
    + exact Ho'.
  - split.
    + eapply grows_trans; [exact G0 | exact Hg].
    + now left.
Qed.

Lemma builder_setRegistry o r : builder (setRegistry o r) = builder o.
Proof. reflexivity. Qed.

(** [prepare] never changes the builder. *)
Lemma prepare_builder o (s : St DockerOptionsPlus) :
  builder (options (snd (prepare W mergeOptions o s)))
  = builder (mergeOptions o "docker.build").
Proof.
  destruct (prepare_effect (fun _ => True) o s (fun _ => I) (fun _ _ => I))
    as [_ [E | [_ [regs E]]]]; rewrite E; reflexivity.
Qed.

(** [doDockerRun] after a [prepare] that went through. *)
Lemma doDockerRun_steps o gi s s1 :
  prepare W mergeOptions o s = (Ok tt, s1) ->
  doDockerRun W mergeOptions o gi s =
  match builder (options s1) with
  | Some docker =>
      (result <- runWithDocker W gi ;;
       if failed result then ret result else linkImage W gi result) s1
  | Some kaniko => (Throw kanikoUnimplemented, s1)
  | None => linkImage W gi {| code := 0; message := None |} s1
  end.
Proof.
  intros Hp. unfold doDockerRun. unfold bind at 1. rewrite Hp.
  unfold bind at 1. unfold getOptions at 1. simpl.
  destruct (builder (options s1)) as [[|] |]; reflexivity.
Qed.

(** When [prepare] throws, so does [doDockerRun], in the same state. *)
Lemma doDockerRun_prepare_throws o gi s e s1 :
  prepare W mergeOptions o s = (Throw e, s1) ->
  doDockerRun W mergeOptions o gi s = (Throw e, s1).
Proof.
  intros Hp. unfold doDockerRun. unfold bind at 1. now rewrite Hp.
Qed.

End RunStages.

(** ** Login *)

(** C7.  [dockerLogin] starts a process exactly when both [user] and
    [password] are present in the options (defined and not the empty
    string).  The process is [docker login --username <user> --password
    <password>], followed by the registry exactly when [options.registry]
    has a character outside A-Z, a-z, 0-9, and its result is the result of
    the login.  When [user] or [password] is absent, the only effect is the
    skip notice in the log and the result is [Success], whose code is 0.
    The options are never touched. *)
Theorem dockerLogin_spawns_iff_credentials :
  forall (W : World) (s : St ExecuteDockerBuild.DockerOptions),
    let o := options s in
    let present :=
      JS.truthy (ExecuteDockerBuild.user o)
      && JS.truthy (ExecuteDockerBuild.password o) in
    exists added,
      snd (ExecuteDockerBuild.dockerLogin W s) = mkSt (trace s ++ added) o
      /\ (existsb isSpawn added = true <-> present = true)
      /\ (present = true ->
          exists u p target,
            ExecuteDockerBuild.user o = Some u
            /\ ExecuteDockerBuild.password o = Some p
            /\ let call :=
                 {| api := SpawnAndWatch; command := "docker";
                    args := ["login"; "--username"; u; "--password"; p]
                            ++ target;
                    cwd := None; env_DOCKER_CONFIG := None |} in
               added = [LogWrite ExecuteDockerBuild.loginNotice; Spawned call]
               /\ fst (ExecuteDockerBuild.dockerLogin W s)
                  = spawnResult W
                      (trace s ++ [LogWrite ExecuteDockerBuild.loginNotice])
                      call
               /\ ((exists r, ExecuteDockerBuild.registry o = Some r
                              /\ hasCharOutsideAlnum r /\ target = [r])
                   \/ (~ (exists r, ExecuteDockerBuild.registry o = Some r
                                    /\ hasCharOutsideAlnum r)
                       /\ target = [])))
      /\ (present = false ->
          added = [LogWrite ExecuteDockerBuild.loginSkipNotice]
          /\ fst (ExecuteDockerBuild.dockerLogin W s) = Ok Success
          /\ code Success = 0).
Proof.
  intros W s. cbv zeta. rewrite dockerLogin_run.
  destruct (JS.truthy (ExecuteDockerBuild.user (options s))
            && JS.truthy (ExecuteDockerBuild.password (options s))) eqn:E.
  - exists [LogWrite ExecuteDockerBuild.loginNotice;
            Spawned (ExecuteDockerBuild.loginCall (options s))].
    split; [| split; [| split]].
    + simpl. unfold emit. simpl. now rewrite <- app_assoc.
    + split; reflexivity.
    + intros _. apply andb_true_iff in E as [Eu Ep].
      destruct (truthy_Some _ Eu) as [u [Hu _]].
      destruct (truthy_Some _ Ep) as [p [Hp _]].
      exists u, p.
      exists (if JS.testNonAlnum (ExecuteDockerBuild.registry (options s))
              then [JS.toString (ExecuteDockerBuild.registry (options s))]
              else []).
      split; [exact Hu |]. split; [exact Hp |]. cbv zeta.
      unfold ExecuteDockerBuild.loginCall, ExecuteDockerBuild.loginArgs.
      rewrite Hu, Hp. simpl JS.toString at 1 2.
      split; [reflexivity |]. split; [reflexivity |].
      destruct (ExecuteDockerBuild.registry (options s)) as [r |];
        unfold JS.testNonAlnum; simpl JS.toString.
      * destruct (JS.testNonAlnumString r) eqn:T.
        -- left. exists r. split; [reflexivity |]. split; [| reflexivity].
           now apply testNonAlnumString_spec.
        -- right. split; [| reflexivity].
           intros [r' [Hr' Hc]]. injection Hr' as <-.
           apply testNonAlnumString_spec in Hc. congruence.
      * right. split; [| reflexivity]. intros [r' [Hr' _]]. discriminate.
    + discriminate.
  - exists [LogWrite ExecuteDockerBuild.loginSkipNotice].
    split; [| split; [| split]].
    + reflexivity.
    + split; discriminate.
    + discriminate.
    + intros _. repeat split.
Qed.

(** With credentials and the registry "registry.acme.io", the login is
    started with the registry as its target. *)
Lemma dockerLogin_spawns_iff_credentials_witness :
  exists added,
    snd (ExecuteDockerBuild.dockerLogin
           (Sample.world Sample.allExitZero true false)
           (Sample.start (Sample.buildOptions None)))
    = mkSt ([] ++ added) (Sample.buildOptions None)
    /\ existsb isSpawn added = true.
Proof.
  destruct (dockerLogin_spawns_iff_credentials
              (Sample.world Sample.allExitZero true false)
              (Sample.start (Sample.buildOptions None)))
    as [added [E [Hiff _]]].
  exists added. split.
  - exact E.
  - apply Hiff. reflexivity.
Defined.

(** ** Push *)

(** C3.  When the push is enabled ([push] is true, or undefined outside
    local mode, so that the flag ends up true, and the project's
    "docker.push.enabled", read with the default true, does not switch it
    off) and [user] or [password] is absent (or empty), [dockerPush]
    returns code 1 with the message about the missing configuration, which
    names 'registry', 'user' and 'password'; the message goes to the log
    and no process is started. *)
Theorem dockerPush_missing_credentials :
  forall (W : World) (image : string) (project : Project)
         (s : St ExecuteDockerBuild.DockerOptions),
    let o := options s in
    ExecuteDockerBuild.push o = Some true
    \/ (ExecuteDockerBuild.push o = None /\ isInLocalMode W = false) ->
    projectConfigurationValue W "docker.push.enabled" project true = true ->
    JS.truthy (ExecuteDockerBuild.user o) = false
    \/ JS.truthy (ExecuteDockerBuild.password o) = false ->
    ExecuteDockerBuild.dockerPush W image project s
    = (Ok {| code := 1;
             message := Some ExecuteDockerBuild.pushMissingMessage |},
       mkSt (trace s ++ [LogWrite ExecuteDockerBuild.pushMissingMessage])
            (ExecuteDockerBuild.setPush o (Some true)))
    /\ existsb isSpawn [LogWrite ExecuteDockerBuild.pushMissingMessage] = false
    /\ JS.includes "'registry'" ExecuteDockerBuild.pushMissingMessage = true
    /\ JS.includes "'user'" ExecuteDockerBuild.pushMissingMessage = true
    /\ JS.includes "'password'" ExecuteDockerBuild.pushMissingMessage = true.
Proof.
  intros W image project s o Hpush Hgate Hcred.
  split; [| repeat split].
  rewrite dockerPush_run. cbv zeta. rewrite orTrue_always, Hgate.
  assert (Ho : ExecuteDockerBuild.pushDefaulted W (options s)
               = ExecuteDockerBuild.setPush o (Some true)).
  { unfold ExecuteDockerBuild.pushDefaulted. fold o.
    destruct Hpush as [E | [E L]]; rewrite E.
    - destruct o; simpl in *; now subst.
    - now rewrite L. }
  rewrite Ho. simpl ExecuteDockerBuild.user. simpl ExecuteDockerBuild.password.
  destruct Hcred as [E | E]; rewrite E; simpl; rewrite ?orb_true_r;
    reflexivity.
Qed.

(** Push requested, outside local mode, no credentials at all. *)
Lemma dockerPush_missing_credentials_witness :
  ExecuteDockerBuild.dockerPush (Sample.world Sample.allExitZero true false)
    "svc:0.1.0" Sample.project
    (Sample.start (Sample.anonymousOptions (Some true)))
  = (Ok {| code := 1;
           message := Some ExecuteDockerBuild.pushMissingMessage |},
     mkSt [LogWrite ExecuteDockerBuild.pushMissingMessage]
          (Sample.anonymousOptions (Some true))).
Proof.
  apply (dockerPush_missing_credentials
           (Sample.world Sample.allExitZero true false)
           "svc:0.1.0" Sample.project
           (Sample.start (Sample.anonymousOptions (Some true)))).
  - left. reflexivity.
  - reflexivity.
  - left. reflexivity.
Defined.

(** The default handed to the lookup of "docker.push.enabled" is
    [options.push || true], which is true whatever the flag says; in a
    project without that setting the push is therefore never skipped. *)
Lemma dockerPush_never_skips_by_flag (W : World) image project
      (s : St ExecuteDockerBuild.DockerOptions) :
  (forall d, projectConfigurationValue W "docker.push.enabled" project d = d) ->
  snd (ExecuteDockerBuild.dockerPush W image project s)
  <> emit (LogWrite ExecuteDockerBuild.pushSkipNotice)
          (mkSt (trace s) (ExecuteDockerBuild.pushDefaulted W (options s))).
Proof.
  intros Hd. rewrite dockerPush_run. cbv zeta.
  rewrite Hd, orTrue_always.
  destruct (negb _ || negb _); simpl; unfold emit; simpl; intros H;
    injection H as H; apply app_inv_head in H; discriminate.
Qed.

(** C2.  The invocation with [push: false], credentials configured and a
    build that exits with 0, in a project without "docker.push.enabled":
    [docker push] is started all the same; without credentials the same
    invocation ends with code 1. *)
Theorem push_false_still_pushes :
  let W := Sample.world Sample.allExitZero true false in
  let run o :=
    ExecuteDockerBuild.executeDockerBuild W
      (ExecuteDockerBuild.DefaultDockerImageNameCreator W)
      Sample.invocation Sample.project (Sample.start o) in
  In (Spawned (ExecuteDockerBuild.pushCall
                 "registry.acme.io/svc:0.1.0-master.20190903"))
     (trace (snd (run (Sample.buildOptions (Some false)))))
  /\ ExecuteDockerBuild.push
       (options (snd (run (Sample.buildOptions (Some false))))) = Some false
  /\ fst (run (Sample.anonymousOptions (Some false)))
     = Ok {| code := 1;
             message := Some ExecuteDockerBuild.pushMissingMessage |}.
Proof.
  cbv zeta. split; [| split].
  - vm_compute. do 3 right. left. reflexivity.
  - reflexivity.
  - reflexivity.
Qed.

(** ** Short circuit on a failing stage *)

(** C1.  In [executeDockerBuild], when the login, the build or the push
    ends with a code other than 0, that result, as it is, is the result of
    the invocation, and the invocation ends in the very state in which the
    stage ended: nothing is started after it, and no image link was posted.
    In [doDockerRun], when [docker run] ends with a code other than 0, that
    result is the result of the invocation and the run is the last thing
    that happened. *)
Theorem failing_stage_ends_invocation :
  (forall (W : World) creator gi p s imageName dockerfilePath stage r s',
      creator p (sdmGoal gi) (options s) (context gi) = Ok imageName ->
      ExecuteDockerBuild.findDockerfile (options s) p = Ok dockerfilePath ->
      StageFails W p dockerfilePath (ExecuteDockerBuild.imageOf imageName)
                 s stage r s' ->
      ExecuteDockerBuild.executeDockerBuild W creator gi p s = (Ok r, s')
      /\ grows (fun e => isLink e = false) s s')
  /\
  (forall (W : World) mergeOptions o gi s s1 r s2,
      DockerExec.prepare W mergeOptions o s = (Ok tt, s1) ->
      DockerExec.builder (options s1) = Some DockerExec.docker ->
      DockerExec.runWithDocker W gi s1 = (Ok r, s2) ->
      code r <> 0 ->
      DockerExec.doDockerRun W mergeOptions o gi s = (Ok r, s2)
      /\ s2 = emit (Spawned (DockerExec.runCall W (options s1)
                               (DockerExec.goalEvent gi))) s1).
Proof.
  split.
  - intros W creator gi p s imageName dockerfilePath stage r s' Hc Hf HS.
    split.
    + eapply StageFails_final; eassumption.
    + eapply StageFails_no_link; eassumption.
  - intros W mergeOptions o gi s s1 r s2 Hp Hb Hr Hcode.
    rewrite (doDockerRun_steps _ _ _ _ _ _ Hp), Hb.
    unfold bind. rewrite Hr, (proj2 (failed_true r) Hcode).
    split; [reflexivity |].
    rewrite runWithDocker_run in Hr. now inversion Hr.
Qed.

(** A build that exits with 2 ends [executeDockerBuild] with that result,
    and a [docker run] that exits with 2 ends [doDockerRun] with it. *)
Lemma failing_stage_ends_invocation_witness :
  (exists s',
      ExecuteDockerBuild.executeDockerBuild
        (Sample.world (Sample.failing "build") true false)
        (ExecuteDockerBuild.DefaultDockerImageNameCreator
           (Sample.world (Sample.failing "build") true false))
        Sample.invocation Sample.project
        (Sample.start (Sample.buildOptions (Some true)))
      = (Ok {| code := 2; message := None |}, s')
      /\ grows (fun e => isLink e = false)
               (Sample.start (Sample.buildOptions (Some true))) s')
  /\
  (exists s2,
      DockerExec.doDockerRun
        (Sample.world (Sample.failing "run") true false) Sample.noOverlay
        (Sample.runOptions (Some DockerExec.docker) None None)
        (Sample.runInvocation "gs-1")
        (Sample.start (Sample.runOptions None None None))
      = (Ok {| code := 2; message := None |}, s2)).
Proof.
  split.
  - eexists.
    eapply (proj1 failing_stage_ends_invocation) with (stage := Build).
    + reflexivity.
    + reflexivity.
    + eapply build_fails.
      * reflexivity.
      * reflexivity.
      * reflexivity.
      * discriminate.
  - eexists.
    eapply (proj2 failing_stage_ends_invocation).
    + reflexivity.
    + reflexivity.
    + reflexivity.
    + discriminate.
Defined.

(** ** The image link *)

(** C5.  When every stage ended with code 0 and the image link answers
    false, the result of the invocation is code 1 with the message "Image
    link failed", whatever the result of the last stage was, and the link
    is the last thing that happened: nothing is started after it. *)
Theorem image_link_failure_downgrades :
  (forall (W : World) creator gi p s imageName dockerfilePath
          r1 s1 r2 s2 r3 s3,
      let image := ExecuteDockerBuild.imageOf imageName in
      let link :=
        PostLinkImage (owner (repo (sdmGoal gi))) (repoName (repo (sdmGoal gi)))
          (sha (sdmGoal gi)) (Some image) (workspaceId (context gi)) in
      creator p (sdmGoal gi) (options s) (context gi) = Ok imageName ->
      ExecuteDockerBuild.findDockerfile (options s) p = Ok dockerfilePath ->
      ExecuteDockerBuild.dockerLogin W s = (Ok r1, s1) -> code r1 = 0 ->
      spawn W (ExecuteDockerBuild.buildCall p dockerfilePath image) s1
      = (Ok r2, s2) -> code r2 = 0 ->
      ExecuteDockerBuild.dockerPush W image p s2 = (Ok r3, s3) ->
      code r3 = 0 ->
      postLinkImageWebhook W (trace s3) (owner (repo (sdmGoal gi)))
        (repoName (repo (sdmGoal gi))) (sha (sdmGoal gi)) (Some image)
        (workspaceId (context gi)) = Ok false ->
      ExecuteDockerBuild.executeDockerBuild W creator gi p s
      = (Ok {| code := 1; message := Some "Image link failed" |},
         emit link s3))
  /\
  (forall (W : World) mergeOptions o gi s s1 r s2,
      let link :=
        PostLinkImage (owner (repo (DockerExec.goalEvent gi)))
          (repoName (repo (DockerExec.goalEvent gi)))
          (sha (DockerExec.goalEvent gi)) None
          (workspaceId (DockerExec.context gi)) in
      DockerExec.prepare W mergeOptions o s = (Ok tt, s1) ->
      DockerExec.builder (options s1) = Some DockerExec.docker ->
      DockerExec.runWithDocker W gi s1 = (Ok r, s2) -> code r = 0 ->
      postLinkImageWebhook W (trace s2) (owner (repo (DockerExec.goalEvent gi)))
        (repoName (repo (DockerExec.goalEvent gi)))
        (sha (DockerExec.goalEvent gi)) None
        (workspaceId (DockerExec.context gi)) = Ok false ->
      DockerExec.doDockerRun W mergeOptions o gi s
      = (Ok {| code := 1; message := Some "Image link failed" |},
         emit link s2)).
Proof.
  split.
  - intros W creator gi p s imageName dockerfilePath r1 s1 r2 s2 r3 s3
           image link Hc Hf H1 C1 H2 C2 H3 C3 HL.
    rewrite (executeDockerBuild_steps _ _ _ _ _ _ _ Hc Hf).
    unfold bind. fold image.
    rewrite H1, (proj2 (failed_false r1) C1).
    rewrite H2, (proj2 (failed_false r2) C2).
    rewrite H3, (proj2 (failed_false r3) C3).
    unfold ExecuteDockerBuild.linkImage, bind, postLink.
    rewrite HL. reflexivity.
  - intros W mergeOptions o gi s s1 r s2 link Hp Hb Hr C HL.
    rewrite (doDockerRun_steps _ _ _ _ _ _ Hp), Hb.
    unfold bind. rewrite Hr, (proj2 (failed_false r) C).
    rewrite linkImage_run, HL. reflexivity.
Qed.

(** Login, build and push exit with 0, the link answers false; and the
    same for [docker run]. *)
Lemma image_link_failure_downgrades_witness :
  fst (ExecuteDockerBuild.executeDockerBuild
         (Sample.world Sample.allExitZero false false)
         (ExecuteDockerBuild.DefaultDockerImageNameCreator
            (Sample.world Sample.allExitZero false false))
         Sample.invocation Sample.project
         (Sample.start (Sample.buildOptions (Some true))))
  = Ok {| code := 1; message := Some "Image link failed" |}
  /\
  fst (DockerExec.doDockerRun
         (Sample.world Sample.allExitZero false false) Sample.noOverlay
         (Sample.runOptions (Some DockerExec.docker) None None)
         (Sample.runInvocation "gs-1")
         (Sample.start (Sample.runOptions None None None)))
  = Ok {| code := 1; message := Some "Image link failed" |}.
Proof.
  split.
  - erewrite (proj1 image_link_failure_downgrades); try reflexivity.
  - erewrite (proj2 image_link_failure_downgrades); try reflexivity.
Defined.

(** ** The builder probe and the kaniko path *)

Lemma prepare_run (W : World) mergeOptions o (s : St DockerExec.DockerOptionsPlus) :
  DockerExec.prepare W mergeOptions o s
  = (DockerExec.checkBuilder W ;;; DockerExec.discoverRegistries W)
      (mkSt (trace s) (mergeOptions o "docker.build")).
Proof. reflexivity. Qed.

Lemma checkBuilder_run (W : World) (s : St DockerExec.DockerOptionsPlus) :
  DockerExec.checkBuilder W s
  = match DockerExec.builder (options s) with
    | Some DockerExec.docker =>
        DockerExec.checkIsBuilderAvailable W "docker" ["help"] s
    | Some DockerExec.kaniko =>
        DockerExec.checkIsBuilderAvailable W "/kaniko/executor" ["--help"] s
    | None => (Ok tt, s)
    end.
Proof.
  unfold DockerExec.checkBuilder, bind, getOptions.
  destruct (DockerExec.builder (options s)) as [[|] |]; reflexivity.
Qed.

(** C6, as the claim has it, fails: [docker help] starts and exits with
    2, a failed probe; [doDockerRun] does not fail: it queries the graph,
    starts [docker run], posts the image link and ends with code 0. *)
Lemma probe_nonzero_exit_counterexample :
  let W := Sample.world (Sample.failing "help") true false in
  let o := Sample.runOptions (Some DockerExec.docker) None None in
  let gi := Sample.runInvocation "gs-1" in
  spawnResult W [] (DockerExec.probeCall "docker" ["help"])
  = Ok {| code := 2; message := None |}
  /\ DockerExec.doDockerRun W Sample.noOverlay o gi (Sample.start o)
     = (Ok {| code := 0; message := None |},
        mkSt [Spawned (DockerExec.probeCall "docker" ["help"]);
              GraphQuery "DockerRegistryProvider" None;
              Spawned {| api := GiSpawn; command := "docker";
                         args := ["run"; "hello-world"]; cwd := None;
                         env_DOCKER_CONFIG := Some None |};
              PostLinkImage "acme" "svc" "9f2c1e7" None "T1"]
             (Sample.runOptions (Some DockerExec.docker)
                (Some (DockerExec.RegistryList [])) None)).
Proof.
  cbv zeta. split; reflexivity.
Qed.

(** C6, amended.  When the probe of the selected builder ([docker help],
    or [/kaniko/executor --help] for kaniko) cannot be started,
    [doDockerRun] throws the error that names the builder, and the probe is
    all that happened: no graph query, no [docker run], no image link, and
    the merged options are as the merge left them.  A probe that starts is
    not a failure, whatever its exit code: the executor goes on to the
    registry discovery. *)
Theorem probe_failure_short_circuits :
  forall (W : World) mergeOptions o gi (s : St DockerExec.DockerOptionsPlus)
         cmd probeArgs,
    let merged := mergeOptions o "docker.build" in
    (DockerExec.builder merged = Some DockerExec.docker
     /\ cmd = "docker" /\ probeArgs = ["help"])
    \/ (DockerExec.builder merged = Some DockerExec.kaniko
        /\ cmd = "/kaniko/executor" /\ probeArgs = ["--help"]) ->
    (forall e,
        spawnResult W (trace s) (DockerExec.probeCall cmd probeArgs) = Throw e ->
        DockerExec.doDockerRun W mergeOptions o gi s
        = (Throw ("Configured Docker image builder '" ++ cmd
                  ++ "' is not available")%string,
           mkSt (trace s ++ [Spawned (DockerExec.probeCall cmd probeArgs)])
                merged)
        /\ JS.includes cmd (DockerExec.builderUnavailable cmd) = true)
    /\ (forall r,
           spawnResult W (trace s) (DockerExec.probeCall cmd probeArgs) = Ok r ->
           DockerExec.prepare W mergeOptions o s
           = DockerExec.discoverRegistries W
               (mkSt (trace s ++ [Spawned (DockerExec.probeCall cmd probeArgs)])
                     merged)).
Proof.
  intros W mergeOptions o gi s cmd probeArgs merged Hb.
  split.
  - intros e Hs. split.
    + apply doDockerRun_prepare_throws. rewrite prepare_run.
      unfold bind at 1. rewrite checkBuilder_run. simpl options. fold merged.
      destruct Hb as [[Hb [-> ->]] | [Hb [-> ->]]]; rewrite Hb;
        rewrite checkIsBuilderAvailable_run; simpl trace; rewrite Hs;
        reflexivity.
    + destruct Hb as [[_ [-> _]] | [_ [-> _]]]; reflexivity.
  - intros r Hs. rewrite prepare_run. unfold bind at 1.
    rewrite checkBuilder_run. simpl options. fold merged.
    destruct Hb as [[Hb [-> ->]] | [Hb [-> ->]]]; rewrite Hb;
      rewrite checkIsBuilderAvailable_run; simpl trace; rewrite Hs;
      reflexivity.
Qed.

(** No docker executable on the host. *)
Lemma probe_failure_short_circuits_witness :
  DockerExec.doDockerRun Sample.noBuilder Sample.noOverlay
    (Sample.runOptions (Some DockerExec.docker) None None)
    (Sample.runInvocation "gs-1")
    (Sample.start (Sample.runOptions None None None))
  = (Throw "Configured Docker image builder 'docker' is not available",
     mkSt [Spawned (DockerExec.probeCall "docker" ["help"])]
          (Sample.runOptions (Some DockerExec.docker) None None)).
Proof.
  apply (proj1 (probe_failure_short_circuits Sample.noBuilder Sample.noOverlay
                  (Sample.runOptions (Some DockerExec.docker) None None)
                  (Sample.runInvocation "gs-1")
                  (Sample.start (Sample.runOptions None None None))
                  "docker" ["help"]
                  (or_introl (conj eq_refl (conj eq_refl eq_refl))))
           "spawn ENOENT").
  reflexivity.
Defined.

(** C4, as the claim has it, fails: kaniko is selected and its probe
    passes, no registry is configured, and the graph client rejects the
    registry query; the invocation throws that error, not the
    "unimplemented" one. *)
Lemma kaniko_registry_error_counterexample :
  let o := Sample.runOptions (Some DockerExec.kaniko) None None in
  DockerExec.builder (Sample.noOverlay o "docker.build")
  = Some DockerExec.kaniko
  /\ spawnResult Sample.graphDown []
       (DockerExec.probeCall "/kaniko/executor" ["--help"]) = Ok Success
  /\ fst (DockerExec.doDockerRun Sample.graphDown Sample.noOverlay o
            (Sample.runInvocation "gs-1") (Sample.start o))
     = Throw "GraphQL request failed"
  /\ fst (DockerExec.doDockerRun Sample.graphDown Sample.noOverlay o
            (Sample.runInvocation "gs-1") (Sample.start o))
     <> Throw DockerExec.kanikoUnimplemented.
Proof.
  cbv zeta. repeat split. discriminate.
Qed.

(** C4, amended.  An invocation that selects kaniko never resolves to a
    result, so never to a success, and posts no image link; when the probe
    passes and the registry discovery goes through (nothing to discover, or
    the graph answers), what it throws is "runWithKaniko unimplemented.",
    right after the discovery. *)
Theorem kaniko_unimplemented :
  forall (W : World) mergeOptions o gi (s : St DockerExec.DockerOptionsPlus),
    let merged := mergeOptions o "docker.build" in
    let probe := DockerExec.probeCall "/kaniko/executor" ["--help"] in
    DockerExec.builder merged = Some DockerExec.kaniko ->
    (exists e, fst (DockerExec.doDockerRun W mergeOptions o gi s) = Throw e)
    /\ grows (fun e => isLink e = false) s
             (snd (DockerExec.doDockerRun W mergeOptions o gi s))
    /\ (forall r0 s1,
           spawnResult W (trace s) probe = Ok r0 ->
           DockerExec.discoverRegistries W
             (mkSt (trace s ++ [Spawned probe]) merged) = (Ok tt, s1) ->
           DockerExec.doDockerRun W mergeOptions o gi s
           = (Throw "runWithKaniko unimplemented.", s1)).
Proof.
  intros W mergeOptions o gi s merged probe Hb.
  pose proof (prepare_builder W mergeOptions o s) as Hpb.
  pose proof (prepare_effect W mergeOptions (fun e => isLink e = false) o s
                (fun _ => eq_refl) (fun _ _ => eq_refl)) as [Hg _].
  cbv zeta in Hg. fold merged in Hpb. rewrite Hb in Hpb.
  split; [| split].
  - destruct (DockerExec.prepare W mergeOptions o s) as [[[] | e] s1] eqn:Hp;
      simpl in Hpb.
    + rewrite (doDockerRun_steps _ _ _ _ _ _ Hp), Hpb.
      now exists DockerExec.kanikoUnimplemented.
    + rewrite (doDockerRun_prepare_throws _ _ _ _ _ _ _ Hp). now exists e.
  - destruct (DockerExec.prepare W mergeOptions o s) as [[[] | e] s1] eqn:Hp;
      simpl in Hpb, Hg.
    + now rewrite (doDockerRun_steps _ _ _ _ _ _ Hp), Hpb.
    + now rewrite (doDockerRun_prepare_throws _ _ _ _ _ _ _ Hp).
  - intros r0 s1 Hs Hd.
    assert (Hp : DockerExec.prepare W mergeOptions o s = (Ok tt, s1)).
    { rewrite prepare_run. unfold bind at 1. rewrite checkBuilder_run.
      simpl options. fold merged. rewrite Hb.
      rewrite checkIsBuilderAvailable_run. simpl trace. fold probe.
      rewrite Hs. exact Hd. }
    rewrite Hp in Hpb. simpl in Hpb.
    now rewrite (doDockerRun_steps _ _ _ _ _ _ Hp), Hpb.
Qed.

(** Kaniko on a host where the probe passes and the graph knows no
    registry. *)
Lemma kaniko_unimplemented_witness :
  fst (DockerExec.doDockerRun (Sample.world Sample.allExitZero true false)
         Sample.noOverlay
         (Sample.runOptions (Some DockerExec.kaniko) None None)
         (Sample.runInvocation "gs-1")
         (Sample.start (Sample.runOptions None None None)))
  = Throw "runWithKaniko unimplemented.".
Proof.
  erewrite (proj2 (proj2 (kaniko_unimplemented
                            (Sample.world Sample.allExitZero true false)
                            Sample.noOverlay
                            (Sample.runOptions (Some DockerExec.kaniko) None None)
                            (Sample.runInvocation "gs-1")
                            (Sample.start (Sample.runOptions None None None))
                            eq_refl))).
  - reflexivity.
  - reflexivity.
  - reflexivity.
Defined.

(** ** DOCKER_CONFIG *)

Lemma docker_prefix_inj (a b : string) :
  (".docker-" ++ a)%string = (".docker-" ++ b)%string -> a = b.
Proof. simpl. intros H. now injection H. Qed.

(** C8, as the claim has it, fails: with a registry that has a user and a
    password, two invocations of different goal sets start [docker run]
    with the same DOCKER_CONFIG, the .docker directory of the home. *)
Lemma docker_config_shared_counterexample :
  let W := Sample.world Sample.allExitZero true false in
  let o := Sample.runOptions (Some DockerExec.docker)
             (Some (DockerExec.RegistryList [Sample.hub])) None in
  goalSetId (Sample.goal "gs-1") <> goalSetId (Sample.goal "gs-2")
  /\ env_DOCKER_CONFIG (DockerExec.runCall W o (Sample.goal "gs-1"))
     = Some (Some "/home/sdm/.docker")
  /\ env_DOCKER_CONFIG (DockerExec.runCall W o (Sample.goal "gs-2"))
     = Some (Some "/home/sdm/.docker")
  /\ In (Spawned (DockerExec.runCall W o (Sample.goal "gs-1")))
        (trace (snd (DockerExec.doDockerRun W Sample.noOverlay o
                       (Sample.runInvocation "gs-1") (Sample.start o))))
  /\ In (Spawned (DockerExec.runCall W o (Sample.goal "gs-2")))
        (trace (snd (DockerExec.doDockerRun W Sample.noOverlay o
                       (Sample.runInvocation "gs-2") (Sample.start o)))).
Proof.
  cbv zeta. split; [discriminate |]. split; [reflexivity |].
  split; [reflexivity |]. split.
  - vm_compute. right. left. reflexivity.
  - vm_compute. right. left. reflexivity.
Qed.

(** ** The options object *)

Lemma Keeps_weaken {O A} (R R' : St O -> St O -> Prop) (m : M O A) :
  (forall s s', R s s' -> R' s s') -> Keeps R m -> Keeps R' m.
Proof. intros H Hm s. apply H, Hm. Qed.

Lemma onlyPushDefaulted_refl W o : onlyPushDefaulted W o o.
Proof. now left. Qed.

Lemma onlyPushDefaulted_trans W o1 o2 o3 :
  onlyPushDefaulted W o1 o2 -> onlyPushDefaulted W o2 o3 ->
  onlyPushDefaulted W o1 o3.
Proof.
  intros [-> | [N1 ->]] [-> | [N2 ->]].
  - now left.
  - now right.
  - now right.
  - discriminate N2.
Qed.

Lemma pushDefaulted_only W o :
  onlyPushDefaulted W o (ExecuteDockerBuild.pushDefaulted W o).
Proof.
  unfold ExecuteDockerBuild.pushDefaulted.
  destruct (ExecuteDockerBuild.push o) eqn:E; [now left | now right].
Qed.

Lemma executeDockerBuild_options (W : World) creator gi p :
  Keeps (fun s s' => onlyPushDefaulted W (options s) (options s'))
        (ExecuteDockerBuild.executeDockerBuild W creator gi p).
Proof.
  set (R := fun s s' : St ExecuteDockerBuild.DockerOptions =>
              onlyPushDefaulted W (options s) (options s')).
  assert (Rrefl : forall s, R s s) by (intros; apply onlyPushDefaulted_refl).
  assert (Rtrans : forall s1 s2 s3, R s1 s2 -> R s2 s3 -> R s1 s3)
    by (intros ? ? ?; apply onlyPushDefaulted_trans).
  assert (Rframes : forall s s', frames (fun _ => True) s s' -> R s s').
  { intros s s' [E _]. left. exact E. }
  unfold ExecuteDockerBuild.executeDockerBuild.
  apply (Keeps_bind R Rtrans); [apply (Keeps_getOptions R Rrefl) | intros o].
  apply (Keeps_bind R Rtrans); [apply (Keeps_await R Rrefl) | intros imageName].
  apply (Keeps_bind R Rtrans); [apply (Keeps_await R Rrefl) | intros path].
  apply (Keeps_bind R Rtrans).
  { apply (Keeps_weaken _ _ _ Rframes). apply dockerLogin_keeps; auto. }
  intros r1. destruct (failed r1); [apply (Keeps_ret R Rrefl) |].
  apply (Keeps_bind R Rtrans).
  { apply (Keeps_weaken _ _ _ Rframes). apply Keeps_spawn. exact I. }
  intros r2. destruct (failed r2); [apply (Keeps_ret R Rrefl) |].
  apply (Keeps_bind R Rtrans).
  { intros s. unfold R.
    rewrite (proj2 (dockerPush_grows W (fun _ => True) _ _ s
                      (fun _ => I) (fun _ => I))).
    apply pushDefaulted_only. }
  intros r3. destruct (failed r3); [apply (Keeps_ret R Rrefl) |].
  apply (Keeps_weaken _ _ _ Rframes). apply linkImage_keeps. auto.
Qed.

(** After [prepare], whatever the builder, the events are the run and the
    link without an image, and the options stay. *)
Lemma dispatch_keeps (W : World) (P : Event -> Prop) gi
      (s1 : St DockerExec.DockerOptionsPlus) :
  (forall call, P (Spawned call)) ->
  (forall o n sh ws, P (PostLinkImage o n sh None ws)) ->
  frames P s1
    (snd (match DockerExec.builder (options s1) with
          | Some DockerExec.docker =>
              (result <- DockerExec.runWithDocker W gi ;;
               if failed result then ret result
               else DockerExec.linkImage W gi result) s1
          | Some DockerExec.kaniko => (Throw DockerExec.kanikoUnimplemented, s1)
          | None =>
              DockerExec.linkImage W gi {| code := 0; message := None |} s1
          end)).
Proof.
  intros HS HL.
  assert (Hlink : forall result, Keeps (frames P) (DockerExec.linkImage W gi result)).
  { intros result s. rewrite linkImage_run. simpl. apply frames_emit, HL. }
  destruct (DockerExec.builder (options s1)) as [[|] |].
  - revert s1. change (Keeps (frames P)
      (result <- DockerExec.runWithDocker W gi ;;
       if failed result then ret result else DockerExec.linkImage W gi result)).
    apply (Keeps_bind _ (frames_trans _)).
    + now apply runWithDocker_keeps.
    + intros r. destruct (failed r); [apply (Keeps_ret _ (frames_refl _)) |].
      apply Hlink.
  - apply frames_refl.
  - apply Hlink.
Qed.

(** The whole of [doDockerRun]: what it adds to the trace and what it does
    to the options. *)
Lemma doDockerRun_effect (W : World) mergeOptions (P : Event -> Prop) o gi
      (s : St DockerExec.DockerOptionsPlus) :
  (forall call, P (Spawned call)) ->
  (forall q id, P (GraphQuery q id)) ->
  (forall ow n sh ws, P (PostLinkImage ow n sh None ws)) ->
  grows P s (snd (DockerExec.doDockerRun W mergeOptions o gi s))
  /\ onlyRegistryDiscovered (mergeOptions o "docker.build")
       (options (snd (DockerExec.doDockerRun W mergeOptions o gi s))).
Proof.
  intros HS HQ HL.
  pose proof (prepare_effect W mergeOptions P o s HS HQ) as [Hg Ho].
  cbv zeta in Hg, Ho.
  destruct (DockerExec.prepare W mergeOptions o s) as [[[] | e] s1] eqn:Hp;
    simpl in Hg, Ho.
  - rewrite (doDockerRun_steps _ _ _ _ _ _ Hp).
    destruct (dispatch_keeps W P gi s1 HS HL) as [Eo Hg'].
    split.
    + eapply grows_trans; eassumption.
    + rewrite Eo. exact Ho.
  - rewrite (doDockerRun_prepare_throws _ _ _ _ _ _ _ Hp). now split.
Qed.

(** C9, as the claim has it, fails: [dockerPush] assigns the push flag
    when it is undefined, and [doDockerRun] assigns the registries it read
    from the graph when none is configured. *)
Lemma options_mutated_counterexample :
  let W := Sample.world Sample.allExitZero true false in
  (let s := Sample.start (Sample.buildOptions None) in
   ExecuteDockerBuild.push (options s) = None
   /\ ExecuteDockerBuild.push
        (options (snd (ExecuteDockerBuild.dockerPush W "svc:0.1.0"
                         Sample.project s))) = Some true)
  /\
  (let o := Sample.runOptions (Some DockerExec.docker) None None in
   DockerExec.registry (Sample.noOverlay o "docker.build") = None
   /\ DockerExec.registry
        (options (snd (DockerExec.doDockerRun W Sample.noOverlay o
                         (Sample.runInvocation "gs-1") (Sample.start o))))
      = Some (DockerExec.RegistryList [])).
Proof.
  cbv zeta. repeat split.
Qed.

(** C9, amended.  The options are assigned to in two places and nowhere
    else.  In [executeDockerBuild], the login and the build leave them as
    they are, and [dockerPush] replaces an undefined [push] by the negation
    of the local mode and leaves a defined one; over the whole invocation,
    whatever its outcome, nothing else changes.  In [doDockerRun],
    [docker run] leaves them as they are, and over the whole invocation
    they are the merged options, except that where no config and no
    registry is configured [registry] holds the registries read from the
    graph. *)
Theorem options_changed_only_by_defaults :
  (forall (W : World) s,
      options (snd (ExecuteDockerBuild.dockerLogin W s)) = options s)
  /\ (forall (W : World) call (s : St ExecuteDockerBuild.DockerOptions),
         options (snd (spawn W call s)) = options s)
  /\ (forall (W : World) image p s,
         options (snd (ExecuteDockerBuild.dockerPush W image p s))
         = match ExecuteDockerBuild.push (options s) with
           | None => ExecuteDockerBuild.setPush (options s)
                       (Some (negb (isInLocalMode W)))
           | Some _ => options s
           end)
  /\ (forall (W : World) creator gi p s,
         onlyPushDefaulted W (options s)
           (options (snd (ExecuteDockerBuild.executeDockerBuild
                            W creator gi p s))))
  /\ (forall (W : World) gi s,
         options (snd (DockerExec.runWithDocker W gi s)) = options s)
  /\ (forall (W : World) mergeOptions o gi s,
         onlyRegistryDiscovered (mergeOptions o "docker.build")
           (options (snd (DockerExec.doDockerRun W mergeOptions o gi s)))).
Proof.
  repeat apply conj.
  - intros W s.
    apply (dockerLogin_keeps W (fun _ => True) (fun _ => I) (fun _ => I) s).
  - reflexivity.
  - intros W image p s.
    apply (dockerPush_grows W (fun _ => True) image p s
             (fun _ => I) (fun _ => I)).
  - intros W creator gi p s. apply executeDockerBuild_options.
  - intros W gi s. now rewrite runWithDocker_run.
  - intros W mergeOptions o gi s.
    apply (doDockerRun_effect W mergeOptions (fun _ => True) o gi s);
      intros; exact I.
Qed.

(** ** The image of the link in doDockerRun *)

(** C10.  In [doDockerRun] the list of images is empty, so its first
    element is undefined; every image link an invocation posts carries no
    image; and when the notification is reached (after a [docker run] that
    ended with code 0, or with no builder selected) the link is posted
    with that undefined image. *)
Theorem doDockerRun_links_no_image :
  DockerExec.images = []
  /\ nth_error DockerExec.images 0 = None
  /\ (forall (W : World) mergeOptions o gi s,
         grows linksNoImage s
               (snd (DockerExec.doDockerRun W mergeOptions o gi s)))
  /\ (forall (W : World) mergeOptions o gi s s1 r s2,
         DockerExec.prepare W mergeOptions o s = (Ok tt, s1) ->
         DockerExec.builder (options s1) = Some DockerExec.docker ->
         DockerExec.runWithDocker W gi s1 = (Ok r, s2) ->
         code r = 0 ->
         snd (DockerExec.doDockerRun W mergeOptions o gi s)
         = emit (PostLinkImage (owner (repo (DockerExec.goalEvent gi)))
                   (repoName (repo (DockerExec.goalEvent gi)))
                   (sha (DockerExec.goalEvent gi))
                   (nth_error DockerExec.images 0)
                   (workspaceId (DockerExec.context gi))) s2)
  /\ (forall (W : World) mergeOptions o gi s s1,
         DockerExec.prepare W mergeOptions o s = (Ok tt, s1) ->
         DockerExec.builder (options s1) = None ->
         snd (DockerExec.doDockerRun W mergeOptions o gi s)
         = emit (PostLinkImage (owner (repo (DockerExec.goalEvent gi)))
                   (repoName (repo (DockerExec.goalEvent gi)))
                   (sha (DockerExec.goalEvent gi))
                   (nth_error DockerExec.images 0)
                   (workspaceId (DockerExec.context gi))) s1).
Proof.
  split; [reflexivity |]. split; [reflexivity |]. split; [| split].
  - intros W mergeOptions o gi s.
    apply (doDockerRun_effect W mergeOptions linksNoImage o gi s);
      intros; reflexivity.
  - intros W mergeOptions o gi s s1 r s2 Hp Hb Hr C.
    rewrite (doDockerRun_steps _ _ _ _ _ _ Hp), Hb.
    unfold bind. rewrite Hr, (proj2 (failed_false r) C).
    now rewrite linkImage_run.
  - intros W mergeOptions o gi s s1 Hp Hb.
    rewrite (doDockerRun_steps _ _ _ _ _ _ Hp), Hb.
    now rewrite linkImage_run.
Qed.

(** A [docker run] that exits with 0: the last event is the link, without
    an image. *)
Lemma doDockerRun_links_no_image_witness :
  last (trace (snd (DockerExec.doDockerRun
                      (Sample.world Sample.allExitZero true false)
                      Sample.noOverlay
                      (Sample.runOptions (Some DockerExec.docker) None None)
                      (Sample.runInvocation "gs-1")
                      (Sample.start (Sample.runOptions None None None)))))
       (LogWrite "")
  = PostLinkImage "acme" "svc" "9f2c1e7" None "T1".
Proof.
  erewrite (proj1 (proj2 (proj2 (proj2 doDockerRun_links_no_image)))).
  all: cycle 1.
  - reflexivity.
  - reflexivity.
  - reflexivity.
  - reflexivity.
  - reflexivity.
Defined.

(** * Further properties *)

(** ** executeDockerBuild from end to end *)

Lemma In_grows {O} (P : Event -> Prop) (s s' : St O) e :
  grows P s s' -> In e (trace s) -> In e (trace s').
Proof. intros [d [E _]] H. rewrite E. apply in_or_app. now left. Qed.

(** X1.  With credentials configured, a login, a build and a push that
    all exit with 0, the push not switched off and an image link that
    answers true, [executeDockerBuild] returns the result of the push, and
    what happened is, in this order: the login notice, [docker login],
    [docker build], [docker push] and the image link, the last three for
    one and the same image. *)
Theorem executeDockerBuild_success_trace :
  forall (W : World) creator gi p s imageName dockerfilePath r1 r2 r3,
    let o := options s in
    let image := ExecuteDockerBuild.imageOf imageName in
    let t1 := trace s ++ [LogWrite ExecuteDockerBuild.loginNotice] in
    let t2 := t1 ++ [Spawned (ExecuteDockerBuild.loginCall o)] in
    let t3 :=
      t2 ++ [Spawned (ExecuteDockerBuild.buildCall p dockerfilePath image)] in
    let t4 := t3 ++ [Spawned (ExecuteDockerBuild.pushCall image)] in
    let link :=
      PostLinkImage (owner (repo (sdmGoal gi))) (repoName (repo (sdmGoal gi)))
        (sha (sdmGoal gi)) (Some image) (workspaceId (context gi)) in
    creator p (sdmGoal gi) o (context gi) = Ok imageName ->
    ExecuteDockerBuild.findDockerfile o p = Ok dockerfilePath ->
    JS.truthy (ExecuteDockerBuild.user o) = true ->
    JS.truthy (ExecuteDockerBuild.password o) = true ->
    spawnResult W t1 (ExecuteDockerBuild.loginCall o) = Ok r1 -> code r1 = 0 ->
    spawnResult W t2 (ExecuteDockerBuild.buildCall p dockerfilePath image)
    = Ok r2 -> code r2 = 0 ->
    projectConfigurationValue W "docker.push.enabled" p true = true ->
    spawnResult W t3 (ExecuteDockerBuild.pushCall image) = Ok r3 ->
    code r3 = 0 ->
    postLinkImageWebhook W t4 (owner (repo (sdmGoal gi)))
      (repoName (repo (sdmGoal gi))) (sha (sdmGoal gi)) (Some image)
      (workspaceId (context gi)) = Ok true ->
    ExecuteDockerBuild.executeDockerBuild W creator gi p s
    = (Ok r3, mkSt (t4 ++ [link]) (ExecuteDockerBuild.pushDefaulted W o)).
Proof.
  intros W creator gi p s imageName dockerfilePath r1 r2 r3 o image
         t1 t2 t3 t4 link Hc Hf Hu Hp H1 C1 H2 C2 Hg H3 C3 HL.
  rewrite (executeDockerBuild_steps _ _ _ _ _ _ _ Hc Hf). fold image.
  unfold bind at 1. rewrite dockerLogin_run. fold o. rewrite Hu, Hp.
  simpl andb. cbv iota. fold t1. rewrite H1, (proj2 (failed_false r1) C1).
  unfold bind at 1. unfold spawn at 1. simpl trace. fold t1 t2.
  rewrite H2, (proj2 (failed_false r2) C2).
  unfold bind at 1. rewrite dockerPush_run. cbv zeta.
  simpl trace. simpl options. fold o t1 t2 t3.
  rewrite orTrue_always, Hg.
  assert (Eu : ExecuteDockerBuild.user (ExecuteDockerBuild.pushDefaulted W o)
               = ExecuteDockerBuild.user o).
  { unfold ExecuteDockerBuild.pushDefaulted.
    now destruct (ExecuteDockerBuild.push o). }
  assert (Ep : ExecuteDockerBuild.password
                 (ExecuteDockerBuild.pushDefaulted W o)
               = ExecuteDockerBuild.password o).
  { unfold ExecuteDockerBuild.pushDefaulted.
    now destruct (ExecuteDockerBuild.push o). }
  rewrite Eu, Ep, Hu, Hp. simpl orb. cbv iota.
  rewrite H3, (proj2 (failed_false r3) C3).
  unfold ExecuteDockerBuild.linkImage, bind, postLink.
  simpl trace. fold t4. fold image. rewrite HL. reflexivity.
Qed.

(** The sample invocation with credentials, everything exiting with 0. *)
Lemma executeDockerBuild_success_trace_witness :
  fst (ExecuteDockerBuild.executeDockerBuild
         (Sample.world Sample.allExitZero true false)
         (ExecuteDockerBuild.DefaultDockerImageNameCreator
            (Sample.world Sample.allExitZero true false))
         Sample.invocation Sample.project
         (Sample.start (Sample.buildOptions (Some true))))
  = Ok {| code := 0; message := None |}.
Proof.
  erewrite (executeDockerBuild_success_trace
              (Sample.world Sample.allExitZero true false)).
  all: cycle 1.
  all: try reflexivity.
Defined.

(** X2.  The image name and the Dockerfile path are computed before
    anything else, the name first: when the image name creator rejects,
    or the Dockerfile finder does, [executeDockerBuild] rejects with that
    error and nothing has happened: no log line, no process, no link, and
    the options are untouched. *)
Theorem executeDockerBuild_name_errors_first :
  forall (W : World) creator gi p s e,
    (creator p (sdmGoal gi) (options s) (context gi) = Throw e ->
     ExecuteDockerBuild.executeDockerBuild W creator gi p s = (Throw e, s))
    /\ (forall imageName,
           creator p (sdmGoal gi) (options s) (context gi) = Ok imageName ->
           ExecuteDockerBuild.findDockerfile (options s) p = Throw e ->
           ExecuteDockerBuild.executeDockerBuild W creator gi p s
           = (Throw e, s)).
Proof.
  intros W creator gi p s e. split.
  - intros Hc. unfold ExecuteDockerBuild.executeDockerBuild.
    unfold bind at 1. unfold getOptions at 1.
    unfold bind at 1. unfold await at 1. now rewrite Hc.
  - intros imageName Hc Hf. unfold ExecuteDockerBuild.executeDockerBuild.
    unfold bind at 1. unfold getOptions at 1.
    unfold bind at 1. unfold await at 1. rewrite Hc.
    unfold bind at 1. unfold await at 1. now rewrite Hf.
Qed.

(** The version service is down: the default creator rejects, and so does
    the invocation, in its first state. *)
Lemma executeDockerBuild_name_errors_first_witness :
  ExecuteDockerBuild.executeDockerBuild SampleGraph.servicesDown
    (ExecuteDockerBuild.DefaultDockerImageNameCreator SampleGraph.servicesDown)
    Sample.invocation Sample.project
    (Sample.start (Sample.buildOptions None))
  = (Throw "no version for this commit",
     Sample.start (Sample.buildOptions None)).
Proof.
  apply (proj1 (executeDockerBuild_name_errors_first SampleGraph.servicesDown
                  (ExecuteDockerBuild.DefaultDockerImageNameCreator
                     SampleGraph.servicesDown)
                  Sample.invocation Sample.project
                  (Sample.start (Sample.buildOptions None))
                  "no version for this commit")).
  reflexivity.
Defined.

(** X3.  A stage that rejects (the process cannot be started, the webhook
    cannot be reached) makes [executeDockerBuild] reject with the same
    error, in the state in which the stage ended: no later stage runs.  In
    particular a rejected image link is an error of the invocation, not
    the result "Image link failed". *)
Theorem executeDockerBuild_rejections_propagate :
  forall (W : World) creator gi p s imageName dockerfilePath e,
    let image := ExecuteDockerBuild.imageOf imageName in
    creator p (sdmGoal gi) (options s) (context gi) = Ok imageName ->
    ExecuteDockerBuild.findDockerfile (options s) p = Ok dockerfilePath ->
    (forall s1,
        ExecuteDockerBuild.dockerLogin W s = (Throw e, s1) ->
        ExecuteDockerBuild.executeDockerBuild W creator gi p s = (Throw e, s1))
    /\ (forall r1 s1 s2,
           ExecuteDockerBuild.dockerLogin W s = (Ok r1, s1) -> code r1 = 0 ->
           spawn W (ExecuteDockerBuild.buildCall p dockerfilePath image) s1
           = (Throw e, s2) ->
           ExecuteDockerBuild.executeDockerBuild W creator gi p s
           = (Throw e, s2))
    /\ (forall r1 s1 r2 s2 s3,
           ExecuteDockerBuild.dockerLogin W s = (Ok r1, s1) -> code r1 = 0 ->
           spawn W (ExecuteDockerBuild.buildCall p dockerfilePath image) s1
           = (Ok r2, s2) -> code r2 = 0 ->
           ExecuteDockerBuild.dockerPush W image p s2 = (Throw e, s3) ->
           ExecuteDockerBuild.executeDockerBuild W creator gi p s
           = (Throw e, s3))
    /\ (forall r1 s1 r2 s2 r3 s3,
           ExecuteDockerBuild.dockerLogin W s = (Ok r1, s1) -> code r1 = 0 ->
           spawn W (ExecuteDockerBuild.buildCall p dockerfilePath image) s1
           = (Ok r2, s2) -> code r2 = 0 ->
           ExecuteDockerBuild.dockerPush W image p s2 = (Ok r3, s3) ->
           code r3 = 0 ->
           postLinkImageWebhook W (trace s3) (owner (repo (sdmGoal gi)))
             (repoName (repo (sdmGoal gi))) (sha (sdmGoal gi)) (Some image)
             (workspaceId (context gi)) = Throw e ->
           ExecuteDockerBuild.executeDockerBuild W creator gi p s
           = (Throw e,
              emit (PostLinkImage (owner (repo (sdmGoal gi)))
                      (repoName (repo (sdmGoal gi))) (sha (sdmGoal gi))
                      (Some image) (workspaceId (context gi))) s3)).
Proof.
  intros W creator gi p s imageName dockerfilePath e image Hc Hf.
  rewrite (executeDockerBuild_steps _ _ _ _ _ _ _ Hc Hf). fold image.
  repeat apply conj; intros; unfold bind;
    repeat match goal with
           | H : ?m = (_, _) |- context [?m] => rewrite H
           | H : code ?r = 0 |- context [failed ?r] =>
               rewrite (proj2 (failed_false r) H)
           end; try reflexivity.
  unfold ExecuteDockerBuild.linkImage, bind, postLink.
  match goal with H : postLinkImageWebhook _ _ _ _ _ _ _ = _ |- _ =>
    rewrite H end.
  reflexivity.
Qed.

(** No docker executable: the login cannot be started and the invocation
    rejects with the error of the process. *)
Lemma executeDockerBuild_rejections_propagate_witness :
  fst (ExecuteDockerBuild.executeDockerBuild Sample.noBuilder
         (ExecuteDockerBuild.DefaultDockerImageNameCreator Sample.noBuilder)
         Sample.invocation Sample.project
         (Sample.start (Sample.buildOptions None)))
  = Throw "spawn ENOENT".
Proof.
  erewrite (proj1 (executeDockerBuild_rejections_propagate Sample.noBuilder
                     (ExecuteDockerBuild.DefaultDockerImageNameCreator
                        Sample.noBuilder)
                     Sample.invocation Sample.project
                     (Sample.start (Sample.buildOptions None))
                     _ _ "spawn ENOENT" eq_refl eq_refl)).
  all: cycle 1.
  all: reflexivity.
Defined.

(** ** The push stage *)



Lemma pushDefaulted_defined W o :
  ExecuteDockerBuild.push (ExecuteDockerBuild.pushDefaulted W o) <> None.
Proof.
  unfold ExecuteDockerBuild.pushDefaulted.
  destruct (ExecuteDockerBuild.push o) eqn:E; simpl; congruence.
Qed.



(** X6.  The options object is shared by all invocations of one
    registration.  Once [dockerPush] has run, the push flag is defined,
    and no later [dockerPush] changes the options again, in whatever
    runtime it runs: the default taken from the local mode of the first
    invocation stays. *)
Theorem dockerPush_default_sticks :
  forall (W1 W2 : World) image1 image2 project1 project2
         (s : St ExecuteDockerBuild.DockerOptions),
    let s1 := snd (ExecuteDockerBuild.dockerPush W1 image1 project1 s) in
    forall s1', options s1' = options s1 ->
      ExecuteDockerBuild.push (options s1) <> None
      /\ options (snd (ExecuteDockerBuild.dockerPush W2 image2 project2 s1'))
         = options s1.
Proof.
  intros W1 W2 image1 image2 project1 project2 s s1 s1' E.
  pose proof (proj2 (dockerPush_grows W1 (fun _ => True) image1 project1 s
                       (fun _ => I) (fun _ => I))) as H1.
  fold s1 in H1.
  pose proof (proj2 (dockerPush_grows W2 (fun _ => True) image2 project2 s1'
                       (fun _ => I) (fun _ => I))) as H2.
  rewrite E in H2. split.
  - rewrite H1. apply pushDefaulted_defined.
  - rewrite H2. unfold ExecuteDockerBuild.pushDefaulted at 1.
    destruct (ExecuteDockerBuild.push (options s1)) eqn:Ep; [reflexivity |].
    exfalso. rewrite H1 in Ep. now apply pushDefaulted_defined in Ep.
Qed.

(** First invocation outside local mode, second one in local mode: the
    flag is, and stays, true. *)
Lemma dockerPush_default_sticks_witness :
  ExecuteDockerBuild.push
    (options
       (snd (ExecuteDockerBuild.dockerPush
               (Sample.world Sample.allExitZero true true)
               "svc:0.2.0" Sample.project
               (snd (ExecuteDockerBuild.dockerPush
                       (Sample.world Sample.allExitZero true false)
                       "svc:0.1.0" Sample.project
                       (Sample.start (Sample.buildOptions None)))))))
  = Some true.
Proof.
  rewrite (proj2 (dockerPush_default_sticks
                    (Sample.world Sample.allExitZero true false)
                    (Sample.world Sample.allExitZero true true)
                    "svc:0.1.0" "svc:0.2.0" Sample.project Sample.project
                    (Sample.start (Sample.buildOptions None)) _ eq_refl)).
  reflexivity.
Defined.

(** ** What an invocation of executeDockerBuild can have done *)

Lemma linkComesLast_of_grows {O} (s s' : St O) :
  grows dockerOrLog s s' -> linkComesLast s s'.
Proof.
  intros [d [E F]]. exists d, []. split; [| split].
  - now rewrite app_nil_r.
  - exact F.
  - now left.
Qed.

Lemma linkComesLast_after {O} (s s1 s2 : St O) :
  grows dockerOrLog s s1 -> linkComesLast s1 s2 -> linkComesLast s s2.
Proof.
  intros [d [E F]] [b [l [E2 [F2 Hl]]]]. exists (d ++ b), l.
  split; [| split].
  - now rewrite E2, E, app_assoc.
  - apply Forall_app. now split.
  - exact Hl.
Qed.

Lemma Keeps_bind_before {O A B} (m : M O A) (k : A -> M O B) :
  Keeps (grows dockerOrLog) m ->
  (forall a, Keeps linkComesLast (k a)) ->
  Keeps linkComesLast (bind m k).
Proof.
  intros Hm Hk s. unfold bind. specialize (Hm s).
  destruct (m s) as [[a | e] s1]; simpl in *.
  - eapply linkComesLast_after; [exact Hm | apply Hk].
  - now apply linkComesLast_of_grows.
Qed.

Lemma dockerLogin_docker (W : World) :
  Keeps (grows dockerOrLog) (ExecuteDockerBuild.dockerLogin W).
Proof.
  intros s. rewrite dockerLogin_run.
  destruct (JS.truthy _ && JS.truthy _); simpl.
  - eapply grows_trans.
    + apply (grows_emit dockerOrLog (LogWrite ExecuteDockerBuild.loginNotice)).
      exact I.
    + apply grows_emit. now split.
  - apply grows_emit. exact I.
Qed.

Lemma dockerPush_docker (W : World) image project :
  Keeps (grows dockerOrLog) (ExecuteDockerBuild.dockerPush W image project).
Proof.
  intros s. rewrite dockerPush_run. cbv zeta.
  repeat match goal with
         | |- context [if ?c then _ else _] => destruct c
         end; simpl;
    eexists [_]; (split; [reflexivity |]); repeat constructor.
Qed.

(** X7.  Whatever the runtime answers and however the invocation ends,
    [executeDockerBuild] adds to the trace only log lines and processes
    whose executable is [docker], started with [spawnAndWatch], followed by
    at most one image link, which is then the last event and carries an
    image. *)
Theorem executeDockerBuild_link_comes_last :
  forall (W : World) creator gi p (s : St ExecuteDockerBuild.DockerOptions),
    linkComesLast s
      (snd (ExecuteDockerBuild.executeDockerBuild W creator gi p s)).
Proof.
  intros W creator gi p.
  change (Keeps linkComesLast
            (ExecuteDockerBuild.executeDockerBuild W creator gi p)).
  assert (Hret : forall r : ExecuteGoalResult,
             Keeps (@linkComesLast ExecuteDockerBuild.DockerOptions) (ret r)).
  { intros r s. apply linkComesLast_of_grows, grows_refl. }
  unfold ExecuteDockerBuild.executeDockerBuild.
  apply Keeps_bind_before; [apply (Keeps_getOptions _ (grows_refl _)) |].
  intros o.
  apply Keeps_bind_before; [apply (Keeps_await _ (grows_refl _)) |].
  intros imageName.
  apply Keeps_bind_before; [apply (Keeps_await _ (grows_refl _)) |].
  intros dockerfilePath.
  apply Keeps_bind_before; [apply dockerLogin_docker |].
  intros r1. destruct (failed r1); [apply Hret |].
  apply Keeps_bind_before.
  { intros s. apply grows_emit. now split. }
  intros r2. destruct (failed r2); [apply Hret |].
  apply Keeps_bind_before; [apply dockerPush_docker |].
  intros r3. destruct (failed r3); [apply Hret |].
  intros s. unfold ExecuteDockerBuild.linkImage, bind, postLink.
  assert (E : linkComesLast s
                (emit (PostLinkImage (owner (repo (sdmGoal gi)))
                         (repoName (repo (sdmGoal gi))) (sha (sdmGoal gi))
                         (Some (ExecuteDockerBuild.imageOf imageName))
                         (workspaceId (context gi))) s)).
  { exists [], [PostLinkImage (owner (repo (sdmGoal gi)))
                  (repoName (repo (sdmGoal gi))) (sha (sdmGoal gi))
                  (Some (ExecuteDockerBuild.imageOf imageName))
                  (workspaceId (context gi))].
    split; [| split].
    - simpl. now rewrite app_nil_r.
    - constructor.
    - right. repeat eexists. }
  destruct (postLinkImageWebhook W (trace s) _ _ _ _ _) as [[|] | e];
    exact E.
Qed.

(** ** The default registration *)

(** X8.  A registration without a goal executor of its own, without an
    image name creator and without a Dockerfile finder is fulfilled by
    [executeDockerBuild] with the default creator: it builds the image
    named after the project and tagged with the version the version
    service gives for the commit, behind the registry of the options and a
    slash when there is a registry.  After a login that ends with code 0
    the process [docker build . -f Dockerfile -t <image>] is started in
    the base directory of the project; when the version service rejects,
    the invocation rejects with its error and nothing has happened.  A
    registration that brings a goal executor is fulfilled by that one
    instead. *)
Theorem default_registration_builds_named_image :
  forall (W : World) registration gi p
         (s : St ExecuteDockerBuild.DockerOptions),
    let o := DockerBuild.options registration in
    (DockerBuild.goalExecutor registration = None ->
     DockerBuild.imageNameCreator registration = None ->
     options s = o ->
     exists executor,
       DockerBuild.fulfillmentExecutor W registration = Some executor
       /\ (forall v r1 s1,
              ExecuteDockerBuild.dockerfileFinder o = None ->
              readSdmVersion W (owner (repo (sdmGoal gi)))
                (repoName (repo (sdmGoal gi)))
                (providerId (repo (sdmGoal gi)))
                (sha (sdmGoal gi)) (branch (sdmGoal gi)) = Ok v ->
              ExecuteDockerBuild.dockerLogin W s = (Ok r1, s1) ->
              code r1 = 0 ->
              let image :=
                ((if JS.truthy (ExecuteDockerBuild.registry o)
                  then JS.toString (ExecuteDockerBuild.registry o) ++ "/"
                  else "")
                 ++ name p ++ ":" ++ v)%string in
              In (Spawned {| api := SpawnAndWatch; command := "docker";
                             args := ["build"; "."; "-f"; "Dockerfile";
                                      "-t"; image];
                             cwd := Some (baseDir p);
                             env_DOCKER_CONFIG := None |})
                 (trace (snd (executor gi p s))))
       /\ (forall e,
              readSdmVersion W (owner (repo (sdmGoal gi)))
                (repoName (repo (sdmGoal gi)))
                (providerId (repo (sdmGoal gi)))
                (sha (sdmGoal gi)) (branch (sdmGoal gi)) = Throw e ->
              executor gi p s = (Throw e, s)))
    /\ (forall own,
           DockerBuild.goalExecutor registration = Some own ->
           DockerBuild.fulfillmentExecutor W registration = own).
Proof.
  intros W registration gi p s o. split.
  - intros Hg Hn Ho.
    exists (ExecuteDockerBuild.executeDockerBuild W
              (ExecuteDockerBuild.DefaultDockerImageNameCreator W)).
    split; [| split].
    + unfold DockerBuild.fulfillmentExecutor. now rewrite Hg, Hn.
    + intros v r1 s1 Hf Hv Hl C1 image.
      assert (Hc : ExecuteDockerBuild.DefaultDockerImageNameCreator W p
                     (sdmGoal gi) (options s) (context gi)
                   = Ok {| ExecuteDockerBuild.imageRegistry :=
                             ExecuteDockerBuild.registry o;
                           ExecuteDockerBuild.imageNameOf := name p;
                           ExecuteDockerBuild.version := v |}).
      { unfold ExecuteDockerBuild.DefaultDockerImageNameCreator.
        now rewrite Hv, Ho. }
      assert (Hd : ExecuteDockerBuild.findDockerfile (options s) p
                   = Ok "Dockerfile").
      { unfold ExecuteDockerBuild.findDockerfile. now rewrite Ho, Hf. }
      rewrite (executeDockerBuild_steps _ _ _ _ _ _ _ Hc Hd).
      unfold bind at 1. rewrite Hl, (proj2 (failed_false r1) C1).
      change (ExecuteDockerBuild.imageOf _) with image.
      set (build := ExecuteDockerBuild.buildCall p "Dockerfile" image).
      assert (Hrest :
                Keeps (grows (fun _ => True))
                  (fun st =>
                     match spawnResult W (trace s1) build with
                     | Ok r2 =>
                         (if failed r2 then ret r2
                          else
                            (result <-
                               ExecuteDockerBuild.dockerPush W image p ;;
                             if failed result then ret result
                             else ExecuteDockerBuild.linkImage W (sdmGoal gi)
                                    (context gi) image result)) st
                     | Throw e => (Throw e, st)
                     end)).
      { destruct (spawnResult W (trace s1) build) as [r2 | e].
        - destruct (failed r2); [apply (Keeps_ret _ (grows_refl _)) |].
          apply (Keeps_bind _ (grows_trans _)).
          + intros st. apply dockerPush_grows; intros; exact I.
          + intros r3. destruct (failed r3);
              [apply (Keeps_ret _ (grows_refl _)) |].
            apply Keeps_frames_grows, linkImage_keeps. intros; exact I.
        - intros st. apply grows_refl. }
      specialize (Hrest (emit (Spawned build) s1)).
      unfold bind at 1. unfold spawn at 1.
      eapply In_grows; [exact Hrest |].
      simpl. apply in_or_app. right. now left.
    + intros e Hv.
      apply (proj1 (executeDockerBuild_name_errors_first W _ gi p s e)).
      unfold ExecuteDockerBuild.DefaultDockerImageNameCreator.
      now rewrite Hv.
  - intros own Hg. unfold DockerBuild.fulfillmentExecutor. now rewrite Hg.
Qed.

(** The sample project "svc" behind the registry "registry.acme.io". *)
Lemma default_registration_builds_named_image_witness :
  exists executor,
    DockerBuild.fulfillmentExecutor
      (Sample.world Sample.allExitZero true false)
      {| DockerBuild.options := Sample.buildOptions None;
         DockerBuild.imageNameCreator := None;
         DockerBuild.goalExecutor := None |} = Some executor
    /\ In (Spawned {| api := SpawnAndWatch; command := "docker";
                      args := ["build"; "."; "-f"; "Dockerfile"; "-t";
                               "registry.acme.io/svc:0.1.0-master.20190903"];
                      cwd := Some "/work/svc";
                      env_DOCKER_CONFIG := None |})
          (trace (snd (executor Sample.invocation Sample.project
                         (Sample.start (Sample.buildOptions None))))).
Proof.
  destruct (proj1 (default_registration_builds_named_image
                     (Sample.world Sample.allExitZero true false)
                     {| DockerBuild.options := Sample.buildOptions None;
                        DockerBuild.imageNameCreator := None;
                        DockerBuild.goalExecutor := None |}
                     Sample.invocation Sample.project
                     (Sample.start (Sample.buildOptions None)))
              eq_refl eq_refl eq_refl) as [executor [E [Hbuild _]]].
  exists executor. split; [exact E |].
  eapply (Hbuild "0.1.0-master.20190903").
  - reflexivity.
  - reflexivity.
  - reflexivity.
  - reflexivity.
Defined.

(** ** readRegistries *)

Lemma answersFor_tail W d pre first host :
  answersFor W (d :: pre) first host -> answersFor W pre first host.
Proof. intros H x Hx. apply H. now right. Qed.

(** Over providers the graph answers for, the loop of [readRegistries]
    sends one password query each and appends one registry each. *)
Lemma readProviders_prefix (W : World) first host pre :
  answersFor W pre first host ->
  forall rest acc (s : St DockerExec.DockerOptionsPlus),
    DockerExec.readProviders W (pre ++ rest) acc s
    = DockerExec.readProviders W rest
        (acc ++ map (fun d => discovered (host d) (first d) d) pre)
        (mkSt (trace s ++ map passwordQuery pre) (options s)).
Proof.
  induction pre as [| d pre IH]; intros Ha rest acc s.
  - simpl. rewrite !app_nil_r. now destruct s.
  - destruct (Ha d (or_introl eq_refl)) as [Hq Hu].
    destruct (Hq (trace s)) as [more Hq'].
    simpl app. cbn [DockerExec.readProviders].
    unfold bind at 1. unfold queryPasswordById at 1. rewrite Hq'.
    unfold bind at 1. unfold await at 1. rewrite Hu.
    rewrite (IH (answersFor_tail _ _ _ _ _ Ha)).
    unfold emit. simpl trace. simpl options. simpl map.
    now rewrite <- !app_assoc.
Qed.

(** X9.  When the graph answers the registry query with nothing (no
    result, no [DockerRegistryProvider] field, or an empty list),
    [readRegistries] returns the empty list after that one query; when the
    query is rejected, [readRegistries] rejects with the same error. *)
Theorem readRegistries_nothing_registered :
  forall (W : World) (s : St DockerExec.DockerOptionsPlus),
    let asked := emit (GraphQuery "DockerRegistryProvider" None) s in
    (queryDockerRegistryProvider W (trace s) = Ok None
     \/ queryDockerRegistryProvider W (trace s) = Ok (Some None)
     \/ queryDockerRegistryProvider W (trace s) = Ok (Some (Some [])) ->
     DockerExec.readRegistries W s = (Ok [], asked))
    /\ (forall e,
           queryDockerRegistryProvider W (trace s) = Throw e ->
           DockerExec.readRegistries W s = (Throw e, asked)).
Proof.
  intros W s asked. unfold DockerExec.readRegistries, bind, queryProviders.
  split.
  - intros [H | [H | H]]; rewrite H; reflexivity.
  - intros e H. now rewrite H.
Qed.

(** A graph that knows no registry, and a graph that is down. *)
Lemma readRegistries_nothing_registered_witness :
  fst (DockerExec.readRegistries (Sample.world Sample.allExitZero true false)
         (Sample.start (Sample.runOptions None None None)))
  = Ok []
  /\ fst (DockerExec.readRegistries Sample.graphDown
            (Sample.start (Sample.runOptions None None None)))
     = Throw "GraphQL request failed".
Proof.
  split.
  - rewrite (proj1 (readRegistries_nothing_registered
                      (Sample.world Sample.allExitZero true false)
                      (Sample.start (Sample.runOptions None None None)))).
    + reflexivity.
    + right. right. reflexivity.
  - rewrite (proj2 (readRegistries_nothing_registered Sample.graphDown
                      (Sample.start (Sample.runOptions None None None)))
               "GraphQL request failed" eq_refl).
    reflexivity.
Defined.

(** X10.  When the graph lists providers and answers for each of them,
    [readRegistries] returns one registry per provider, in the order of
    the list: the host of the provider's URL, the login of the owner and
    the secret of the first password entry as user and password, the name
    of the provider as label, and [display] false.  It sends the registry
    query and then one password query per provider, in that order, and
    does not touch the options. *)
Theorem readRegistries_maps_providers :
  forall (W : World) providers first host
         (s : St DockerExec.DockerOptionsPlus),
    queryDockerRegistryProvider W (trace s) = Ok (Some (Some providers)) ->
    answersFor W providers first host ->
    DockerExec.readRegistries W s
    = (Ok (map (fun d => discovered (host d) (first d) d) providers),
       mkSt (trace s
             ++ GraphQuery "DockerRegistryProvider" None
                :: map passwordQuery providers)
            (options s)).
Proof.
  intros W providers first host s Hq Ha.
  unfold DockerExec.readRegistries, bind, queryProviders. rewrite Hq.
  rewrite <- (app_nil_r providers) at 1.
  rewrite (readProviders_prefix W first host providers Ha).
  simpl. unfold ret. now rewrite <- app_assoc.
Qed.

(** The two sample providers. *)
Lemma readRegistries_maps_providers_witness :
  fst (DockerExec.readRegistries SampleGraph.world
         (Sample.start (Sample.runOptions None None None)))
  = Ok [ discovered "registry.acme.io" (SampleGraph.passwordOf "cred-1")
           {| url := "https://registry.acme.io"; providerName := "acme";
              credentialId := "cred-1" |};
         discovered "eu.gcr.io" (SampleGraph.passwordOf "cred-2")
           {| url := "https://eu.gcr.io"; providerName := "gcr";
              credentialId := "cred-2" |} ].
Proof.
  rewrite (readRegistries_maps_providers SampleGraph.world
             SampleGraph.providers
             (fun d => SampleGraph.passwordOf (credentialId d))
             (fun d => SampleGraph.hostOf (url d))
             (Sample.start (Sample.runOptions None None None))).
  - reflexivity.
  - reflexivity.
  - intros d _. split.
    + intros t. exists []. reflexivity.
    + reflexivity.
Defined.

(** X11.  The loop stops at the first provider it cannot make a registry
    of.  After providers the graph answers for, a provider whose
    credential has no password entry makes [readRegistries] reject with a
    TypeError, and a provider whose URL does not parse makes it reject
    with the error of the URL; in both cases the password query of that
    provider is the last query sent, the providers after it are not asked
    about, and the registries read so far are lost. *)
Theorem readRegistries_stops_at_first_failure :
  forall (W : World) pre bad post first host
         (s : St DockerExec.DockerOptionsPlus),
    let asked :=
      mkSt (trace s
            ++ GraphQuery "DockerRegistryProvider" None
               :: map passwordQuery (pre ++ [bad]))
           (options s) in
    queryDockerRegistryProvider W (trace s)
    = Ok (Some (Some (pre ++ bad :: post))) ->
    answersFor W pre first host ->
    ((forall t, queryPassword W t (credentialId bad) = Ok []) ->
     (exists h, urlHost W (url bad) = Ok h) ->
     DockerExec.readRegistries W s
     = (Throw "TypeError: Cannot read property 'owner' of undefined", asked))
    /\ (forall e more,
           (forall t, queryPassword W t (credentialId bad) = Ok more) ->
           urlHost W (url bad) = Throw e ->
           DockerExec.readRegistries W s = (Throw e, asked)).
Proof.
  intros W pre bad post first host s asked Hq Ha.
  split; [intros Hp [h Hu] | intros e more Hp Hu];
    unfold DockerExec.readRegistries; unfold bind at 1;
    unfold queryProviders; rewrite Hq;
    rewrite (readProviders_prefix W first host pre Ha);
    cbn [DockerExec.readProviders];
    unfold bind at 1; unfold queryPasswordById at 1; unfold emit;
    simpl trace; simpl options;
    match goal with
    | |- context [queryPassword W ?t ?i] => rewrite (Hp t)
    end;
    unfold bind at 1; unfold await at 1; rewrite Hu; unfold throw;
    f_equal; unfold asked; f_equal; rewrite map_app; simpl;
    now rewrite <- !app_assoc.
Qed.

(** The second sample provider has no password entry. *)
Lemma readRegistries_stops_at_first_failure_witness :
  DockerExec.readRegistries SampleGraph.missingPassword
    (Sample.start (Sample.runOptions None None None))
  = (Throw "TypeError: Cannot read property 'owner' of undefined",
     mkSt [GraphQuery "DockerRegistryProvider" None;
           GraphQuery "Password" (Some "cred-1");
           GraphQuery "Password" (Some "cred-2")]
          (Sample.runOptions None None None)).
Proof.
  assert (Ha : answersFor SampleGraph.missingPassword
                 [ {| url := "https://registry.acme.io";
                      providerName := "acme"; credentialId := "cred-1" |} ]
                 (fun d => SampleGraph.passwordOf (credentialId d))
                 (fun d => SampleGraph.hostOf (url d))).
  { intros d [<- | []]. split.
    - intros t. exists []. reflexivity.
    - reflexivity. }
  apply (proj1 (readRegistries_stops_at_first_failure
                  SampleGraph.missingPassword
                  [ {| url := "https://registry.acme.io";
                       providerName := "acme"; credentialId := "cred-1" |} ]
                  {| url := "https://eu.gcr.io"; providerName := "gcr";
                     credentialId := "cred-2" |}
                  []
                  (fun d => SampleGraph.passwordOf (credentialId d))
                  (fun d => SampleGraph.hostOf (url d))
                  (Sample.start (Sample.runOptions None None None))
                  eq_refl Ha)).
  - intros t. reflexivity.
  - exists "eu.gcr.io". reflexivity.
Defined.

(** ** doDockerRun from end to end *)

Lemma discoverRegistries_skip (W : World) (s : St DockerExec.DockerOptionsPlus) :
  DockerExec.noRegistryConfigured (options s) = false ->
  DockerExec.discoverRegistries W s = (Ok tt, s).
Proof.
  intros H. unfold DockerExec.discoverRegistries, bind, getOptions.
  now rewrite H.
Qed.

(** [prepare] with a builder whose probe could be started. *)
Lemma prepare_probe_started (W : World) mergeOptions o
      (s : St DockerExec.DockerOptionsPlus) cmd probeArgs r :
  let merged := mergeOptions o "docker.build" in
  (DockerExec.builder merged = Some DockerExec.docker
   /\ cmd = "docker" /\ probeArgs = ["help"])
  \/ (DockerExec.builder merged = Some DockerExec.kaniko
      /\ cmd = "/kaniko/executor" /\ probeArgs = ["--help"]) ->
  spawnResult W (trace s) (DockerExec.probeCall cmd probeArgs) = Ok r ->
  DockerExec.prepare W mergeOptions o s
  = DockerExec.discoverRegistries W
      (mkSt (trace s ++ [Spawned (DockerExec.probeCall cmd probeArgs)]) merged).
Proof.
  intros merged Hb Hs. rewrite prepare_run. unfold bind at 1.
  rewrite checkBuilder_run. simpl options. fold merged.
  destruct Hb as [[Hb [-> ->]] | [Hb [-> ->]]]; rewrite Hb;
    rewrite checkIsBuilderAvailable_run; simpl trace; rewrite Hs;
    reflexivity.
Qed.

(** After [prepare] with the docker builder, the run is the next event. *)
Lemma docker_dispatch_trace (W : World) gi
      (s1 : St DockerExec.DockerOptionsPlus) :
  exists rest,
    trace (snd ((result <- DockerExec.runWithDocker W gi ;;
                 if failed result then ret result
                 else DockerExec.linkImage W gi result) s1))
    = trace s1
      ++ Spawned (DockerExec.runCall W (options s1) (DockerExec.goalEvent gi))
         :: rest
    /\ options (snd ((result <- DockerExec.runWithDocker W gi ;;
                      if failed result then ret result
                      else DockerExec.linkImage W gi result) s1))
       = options s1.
Proof.
  unfold bind. rewrite runWithDocker_run.
  destruct (spawnResult W (trace s1) _) as [r | e].
  - destruct (failed r).
    + exists []. split; reflexivity.
    + rewrite linkImage_run. eexists [_]. simpl.
      split; [now rewrite <- app_assoc | reflexivity].
  - exists []. split; reflexivity.
Qed.

(** X12.  The probe only has to start: whatever the exit code of [docker
    help], [doDockerRun] goes on, and with a registry or a docker config
    configured the next thing it does is to start [docker run] with the
    merged options. *)
Theorem probe_exit_code_is_ignored :
  forall (W : World) mergeOptions o gi (s : St DockerExec.DockerOptionsPlus) r,
    let merged := mergeOptions o "docker.build" in
    DockerExec.builder merged = Some DockerExec.docker ->
    spawnResult W (trace s) (DockerExec.probeCall "docker" ["help"]) = Ok r ->
    DockerExec.noRegistryConfigured merged = false ->
    exists rest,
      trace (snd (DockerExec.doDockerRun W mergeOptions o gi s))
      = trace s
        ++ Spawned (DockerExec.probeCall "docker" ["help"])
           :: Spawned (DockerExec.runCall W merged (DockerExec.goalEvent gi))
           :: rest.
Proof.
  intros W mergeOptions o gi s r merged Hb Hs Hn.
  assert (Hp : DockerExec.prepare W mergeOptions o s
               = (Ok tt,
                  mkSt (trace s
                        ++ [Spawned (DockerExec.probeCall "docker" ["help"])])
                       merged)).
  { rewrite (prepare_probe_started W mergeOptions o s "docker" ["help"] r);
      [| left; repeat split; exact Hb | exact Hs].
    now apply discoverRegistries_skip. }
  rewrite (doDockerRun_steps _ _ _ _ _ _ Hp). simpl options. rewrite Hb.
  destruct (docker_dispatch_trace W gi
              (mkSt (trace s
                     ++ [Spawned (DockerExec.probeCall "docker" ["help"])])
                    merged)) as [rest [E _]].
  exists rest. rewrite E. simpl. now rewrite <- app_assoc.
Qed.

(** A host where [docker help] exits with 127. *)
Lemma probe_exit_code_is_ignored_witness :
  exists rest,
    trace (snd (DockerExec.doDockerRun SampleGraph.exit127 Sample.noOverlay
                  (Sample.runOptions (Some DockerExec.docker) None (Some "{}"))
                  (Sample.runInvocation "gs-1")
                  (Sample.start (Sample.runOptions None None None))))
    = [] ++ Spawned (DockerExec.probeCall "docker" ["help"])
         :: Spawned (DockerExec.runCall SampleGraph.exit127
                       (Sample.runOptions (Some DockerExec.docker) None
                          (Some "{}"))
                       (Sample.goal "gs-1"))
         :: rest.
Proof.
  apply (probe_exit_code_is_ignored SampleGraph.exit127 Sample.noOverlay
           (Sample.runOptions (Some DockerExec.docker) None (Some "{}"))
           (Sample.runInvocation "gs-1")
           (Sample.start (Sample.runOptions None None None))
           {| code := 127; message := None |}).
  - reflexivity.
  - reflexivity.
  - reflexivity.
Defined.

(** X13.  Configuration wins over discovery: when a docker config is
    supplied or the registry option is not empty, [doDockerRun] sends no
    query to the graph, and the options stay the merged ones to the end of
    the invocation, however it ends. *)
Theorem configured_registry_skips_discovery :
  forall (W : World) mergeOptions o gi (s : St DockerExec.DockerOptionsPlus),
    let merged := mergeOptions o "docker.build" in
    DockerExec.noRegistryConfigured merged = false ->
    grows (fun e => isQuery e = false) s
          (snd (DockerExec.doDockerRun W mergeOptions o gi s))
    /\ options (snd (DockerExec.doDockerRun W mergeOptions o gi s)) = merged.
Proof.
  intros W mergeOptions o gi s merged Hn.
  set (P := fun e => isQuery e = false).
  set (s0 := mkSt (trace s) merged).
  assert (G0 : grows P s s0).
  { exists []. split; [simpl; now rewrite app_nil_r | constructor]. }
  pose proof (checkBuilder_keeps W P (fun _ => eq_refl) s0) as [Ho Hg].
  destruct (DockerExec.checkBuilder W s0) as [[[] | e] s1] eqn:Hc;
    simpl in Ho, Hg.
  - assert (Hp : DockerExec.prepare W mergeOptions o s = (Ok tt, s1)).
    { rewrite prepare_run. unfold bind at 1. fold merged. fold s0.
      rewrite Hc. apply discoverRegistries_skip. now rewrite Ho. }
    rewrite (doDockerRun_steps _ _ _ _ _ _ Hp).
    destruct (dispatch_keeps W P gi s1 (fun _ => eq_refl)
                (fun _ _ _ _ => eq_refl)) as [Eo Hg'].
    split.
    + eapply grows_trans; [exact G0 |].
      eapply grows_trans; [exact Hg | exact Hg'].
    + now rewrite Eo, Ho.
  - assert (Hp : DockerExec.prepare W mergeOptions o s = (Throw e, s1)).
    { rewrite prepare_run. unfold bind at 1. fold merged. fold s0.
      now rewrite Hc. }
    rewrite (doDockerRun_prepare_throws _ _ _ _ _ _ _ Hp). simpl. split.
    + eapply grows_trans; [exact G0 | exact Hg].
    + exact Ho.
Qed.

(** A registry list in the options, in a runtime whose graph knows other
    registries: the options keep the configured list. *)
Lemma configured_registry_skips_discovery_witness :
  DockerExec.registry
    (options (snd (DockerExec.doDockerRun SampleGraph.world Sample.noOverlay
                     (Sample.runOptions (Some DockerExec.docker)
                        (Some (DockerExec.RegistryList [Sample.hub])) None)
                     (Sample.runInvocation "gs-1")
                     (Sample.start (Sample.runOptions None None None)))))
  = Some (DockerExec.RegistryList [Sample.hub]).
Proof.
  rewrite (proj2 (configured_registry_skips_discovery SampleGraph.world
                    Sample.noOverlay
                    (Sample.runOptions (Some DockerExec.docker)
                       (Some (DockerExec.RegistryList [Sample.hub])) None)
                    (Sample.runInvocation "gs-1")
                    (Sample.start (Sample.runOptions None None None))
                    eq_refl)).
  reflexivity.
Defined.

Lemma discoverRegistries_found (W : World)
      (s : St DockerExec.DockerOptionsPlus) registries s1 :
  DockerExec.noRegistryConfigured (options s) = true ->
  DockerExec.readRegistries W s = (Ok registries, s1) ->
  DockerExec.discoverRegistries W s
  = (Ok tt,
     mkSt (trace s1)
          (DockerExec.setRegistry (options s)
             (Some (DockerExec.RegistryList registries)))).
Proof.
  intros Hn Hr. unfold DockerExec.discoverRegistries.
  unfold bind at 1. unfold getOptions at 1. rewrite Hn.
  unfold bind. now rewrite Hr.
Qed.

Lemma truthy_nonempty (v : string) : v <> "" -> JS.truthy (Some v) = true.
Proof. destruct v; [intros H; now elim H | reflexivity]. Qed.

(** X14.  Discovered credentials are kept in the shared directory.  With
    the docker builder, no docker config and no registry configured,
    [doDockerRun] reads the registries from the graph and assigns them to
    the options; when one of them has a login and a secret that are not
    empty, [docker run] is started with DOCKER_CONFIG set to the .docker
    directory of the home, which does not depend on the goal set. *)
Theorem discovered_credentials_share_docker_config :
  forall (W : World) mergeOptions o gi (s : St DockerExec.DockerOptionsPlus)
         r providers first host,
    let merged := mergeOptions o "docker.build" in
    let probe := DockerExec.probeCall "docker" ["help"] in
    let found :=
      DockerExec.setRegistry merged
        (Some (DockerExec.RegistryList
                 (map (fun d => discovered (host d) (first d) d) providers))) in
    DockerExec.builder merged = Some DockerExec.docker ->
    spawnResult W (trace s) probe = Ok r ->
    DockerExec.noRegistryConfigured merged = true ->
    queryDockerRegistryProvider W (trace s ++ [Spawned probe])
    = Ok (Some (Some providers)) ->
    answersFor W providers first host ->
    (exists d, In d providers
               /\ ownerLogin (first d) <> "" /\ secret (first d) <> "") ->
    In (Spawned (DockerExec.runCall W found (DockerExec.goalEvent gi)))
       (trace (snd (DockerExec.doDockerRun W mergeOptions o gi s)))
    /\ env_DOCKER_CONFIG (DockerExec.runCall W found (DockerExec.goalEvent gi))
       = Some (Some (pathJoin W (homedir W) ".docker"))
    /\ options (snd (DockerExec.doDockerRun W mergeOptions o gi s)) = found.
Proof.
  intros W mergeOptions o gi s r providers first host merged probe found
         Hb Hs Hn Hq Ha [d [Hin [Hl Hsec]]].
  set (s0 := mkSt (trace s ++ [Spawned probe]) merged).
  set (s1 := mkSt (trace s0
                   ++ GraphQuery "DockerRegistryProvider" None
                      :: map passwordQuery providers) found).
  assert (Hp : DockerExec.prepare W mergeOptions o s = (Ok tt, s1)).
  { rewrite (prepare_probe_started W mergeOptions o s "docker" ["help"] r);
      [| left; repeat split; exact Hb | exact Hs].
    fold merged probe s0.
    rewrite (discoverRegistries_found W s0 _ _ Hn
               (readRegistries_maps_providers W providers first host s0
                  Hq Ha)).
    reflexivity. }
  rewrite (doDockerRun_steps _ _ _ _ _ _ Hp).
  change (DockerExec.builder (options s1)) with (DockerExec.builder merged).
  rewrite Hb.
  destruct (docker_dispatch_trace W gi s1) as [rest [E Eo]].
  split; [| split].
  - rewrite E. apply in_or_app. right. now left.
  - unfold DockerExec.runCall, DockerExec.dockerConfigPath. simpl.
    replace (existsb DockerExec.hasCredentials
               (map DockerExec.RegistryElem
                  (map (fun d0 => discovered (host d0) (first d0) d0)
                     providers))) with true; [reflexivity |].
    symmetry. apply existsb_exists.
    exists (DockerExec.RegistryElem (discovered (host d) (first d) d)).
    split.
    + apply in_map, in_map_iff. now exists d.
    + change (JS.truthy (Some (ownerLogin (first d)))
              && JS.truthy (Some (secret (first d))) = true).
      now rewrite (truthy_nonempty _ Hl), (truthy_nonempty _ Hsec).
  - exact Eo.
Qed.

(** The sample graph: no registry configured, two providers with
    passwords. *)
Lemma discovered_credentials_share_docker_config_witness :
  In (Spawned
        {| api := GiSpawn; command := "docker";
           args := ["run"; "hello-world"]; cwd := None;
           env_DOCKER_CONFIG := Some (Some "/home/sdm/.docker") |})
     (trace (snd (DockerExec.doDockerRun SampleGraph.world Sample.noOverlay
                    (Sample.runOptions (Some DockerExec.docker) None None)
                    (Sample.runInvocation "gs-1")
                    (Sample.start (Sample.runOptions None None None))))).
Proof.
  assert (Ha : answersFor SampleGraph.world SampleGraph.providers
                 (fun d => SampleGraph.passwordOf (credentialId d))
                 (fun d => SampleGraph.hostOf (url d))).
  { intros d _. split.
    - intros t. exists []. reflexivity.
    - reflexivity. }
  assert (Hd : exists d,
             In d SampleGraph.providers
             /\ ownerLogin (SampleGraph.passwordOf (credentialId d)) <> ""
             /\ secret (SampleGraph.passwordOf (credentialId d)) <> "").
  { exists {| url := "https://registry.acme.io"; providerName := "acme";
              credentialId := "cred-1" |}.
    split; [left; reflexivity | split; discriminate]. }
  apply (proj1 (discovered_credentials_share_docker_config
                  SampleGraph.world Sample.noOverlay
                  (Sample.runOptions (Some DockerExec.docker) None None)
                  (Sample.runInvocation "gs-1")
                  (Sample.start (Sample.runOptions None None None))
                  Success SampleGraph.providers
                  (fun d => SampleGraph.passwordOf (credentialId d))
                  (fun d => SampleGraph.hostOf (url d))
                  eq_refl eq_refl eq_refl eq_refl Ha Hd)).
Defined.

(** X15.  When [docker run] ends with code 0 and the image link answers
    true, the result of [doDockerRun] is the result of the run, code and
    message, and the link is the last event. *)
Theorem doDockerRun_success_returns_run_result :
  forall (W : World) mergeOptions o gi (s : St DockerExec.DockerOptionsPlus)
         s1 r s2,
    DockerExec.prepare W mergeOptions o s = (Ok tt, s1) ->
    DockerExec.builder (options s1) = Some DockerExec.docker ->
    DockerExec.runWithDocker W gi s1 = (Ok r, s2) -> code r = 0 ->
    postLinkImageWebhook W (trace s2) (owner (repo (DockerExec.goalEvent gi)))
      (repoName (repo (DockerExec.goalEvent gi)))
      (sha (DockerExec.goalEvent gi)) None
      (workspaceId (DockerExec.context gi)) = Ok true ->
    DockerExec.doDockerRun W mergeOptions o gi s
    = (Ok r,
       emit (PostLinkImage (owner (repo (DockerExec.goalEvent gi)))
               (repoName (repo (DockerExec.goalEvent gi)))
               (sha (DockerExec.goalEvent gi)) None
               (workspaceId (DockerExec.context gi))) s2).
Proof.
  intros W mergeOptions o gi s s1 r s2 Hp Hb Hr C HL.
  rewrite (doDockerRun_steps _ _ _ _ _ _ Hp), Hb.
  unfold bind. rewrite Hr, (proj2 (failed_false r) C).
  rewrite linkImage_run, HL. now destruct r.
Qed.

(** Everything exits with 0 and the link answers true. *)
Lemma doDockerRun_success_returns_run_result_witness :
  fst (DockerExec.doDockerRun (Sample.world Sample.allExitZero true false)
         Sample.noOverlay
         (Sample.runOptions (Some DockerExec.docker) None None)
         (Sample.runInvocation "gs-1")
         (Sample.start (Sample.runOptions None None None)))
  = Ok {| code := 0; message := None |}.
Proof.
  erewrite (doDockerRun_success_returns_run_result
              (Sample.world Sample.allExitZero true false)).
  all: cycle 1.
  all: reflexivity.
Defined.

(** X16.  With no builder selected (neither "docker" nor "kaniko"),
    [doDockerRun] starts no process at all, not even a probe; it still
    discovers registries when none is configured, and posts the image
    link.  With a registry or a docker config configured and a link that
    answers true, the whole invocation is that one link and its result is
    code 0. *)
Theorem no_builder_runs_nothing :
  forall (W : World) mergeOptions o gi (s : St DockerExec.DockerOptionsPlus),
    let merged := mergeOptions o "docker.build" in
    let link :=
      PostLinkImage (owner (repo (DockerExec.goalEvent gi)))
        (repoName (repo (DockerExec.goalEvent gi)))
        (sha (DockerExec.goalEvent gi)) None
        (workspaceId (DockerExec.context gi)) in
    DockerExec.builder merged = None ->
    grows (fun e => isSpawn e = false) s
          (snd (DockerExec.doDockerRun W mergeOptions o gi s))
    /\ (DockerExec.noRegistryConfigured merged = false ->
        postLinkImageWebhook W (trace s)
          (owner (repo (DockerExec.goalEvent gi)))
          (repoName (repo (DockerExec.goalEvent gi)))
          (sha (DockerExec.goalEvent gi)) None
          (workspaceId (DockerExec.context gi)) = Ok true ->
        DockerExec.doDockerRun W mergeOptions o gi s
        = (Ok {| code := 0; message := None |},
           mkSt (trace s ++ [link]) merged)).
Proof.
  intros W mergeOptions o gi s merged link Hb.
  set (P := fun e => isSpawn e = false).
  set (s0 := mkSt (trace s) merged).
  assert (G0 : grows P s s0).
  { exists []. split; [simpl; now rewrite app_nil_r | constructor]. }
  assert (Hprep : DockerExec.prepare W mergeOptions o s
                  = DockerExec.discoverRegistries W s0).
  { rewrite prepare_run. unfold bind at 1. rewrite checkBuilder_run.
    simpl options. fold merged. now rewrite Hb. }
  pose proof (prepare_builder W mergeOptions o s) as Hpb.
  fold merged in Hpb. rewrite Hb in Hpb.
  split.
  - pose proof (discoverRegistries_effect W P (fun _ _ => eq_refl) s0)
      as [Hg _]. cbv zeta in Hg. rewrite <- Hprep in Hg.
    destruct (DockerExec.prepare W mergeOptions o s) as [[[] | e] s1] eqn:Hp;
      simpl in Hg, Hpb.
    + rewrite (doDockerRun_steps _ _ _ _ _ _ Hp), Hpb, linkImage_run.
      simpl. eapply grows_trans; [exact G0 |].
      eapply grows_trans; [exact Hg |]. now apply grows_emit.
    + rewrite (doDockerRun_prepare_throws _ _ _ _ _ _ _ Hp). simpl.
      eapply grows_trans; [exact G0 | exact Hg].
  - intros Hn HL.
    assert (Hp : DockerExec.prepare W mergeOptions o s = (Ok tt, s0)).
    { rewrite Hprep. now apply discoverRegistries_skip. }
    rewrite (doDockerRun_steps _ _ _ _ _ _ Hp). simpl options. rewrite Hb.
    rewrite linkImage_run. simpl trace. now rewrite HL.
Qed.

(** Options without a builder, with a docker config. *)
Lemma no_builder_runs_nothing_witness :
  DockerExec.doDockerRun (Sample.world Sample.allExitZero true false)
    Sample.noOverlay (Sample.runOptions None None (Some "{}"))
    (Sample.runInvocation "gs-1")
    (Sample.start (Sample.runOptions None None None))
  = (Ok {| code := 0; message := None |},
     mkSt [PostLinkImage "acme" "svc" "9f2c1e7" None "T1"]
          (Sample.runOptions None None (Some "{}"))).
Proof.
  apply (proj2 (no_builder_runs_nothing
                  (Sample.world Sample.allExitZero true false)
                  Sample.noOverlay (Sample.runOptions None None (Some "{}"))
                  (Sample.runInvocation "gs-1")
                  (Sample.start (Sample.runOptions None None None))
                  eq_refl)).
  - reflexivity.
  - reflexivity.
Defined.

(** X17.  In [doDockerRun] a [docker run] that cannot be started, and an
    image link that is rejected after a run that ended with code 0, make
    the invocation reject with the same error, the run or the link being
    the last event. *)
Theorem doDockerRun_rejections_propagate :
  forall (W : World) mergeOptions o gi (s : St DockerExec.DockerOptionsPlus)
         s1 e,
    DockerExec.prepare W mergeOptions o s = (Ok tt, s1) ->
    DockerExec.builder (options s1) = Some DockerExec.docker ->
    (spawnResult W (trace s1)
       (DockerExec.runCall W (options s1) (DockerExec.goalEvent gi)) = Throw e ->
     DockerExec.doDockerRun W mergeOptions o gi s
     = (Throw e,
        emit (Spawned (DockerExec.runCall W (options s1)
                         (DockerExec.goalEvent gi))) s1))
    /\ (forall r s2,
           DockerExec.runWithDocker W gi s1 = (Ok r, s2) -> code r = 0 ->
           postLinkImageWebhook W (trace s2)
             (owner (repo (DockerExec.goalEvent gi)))
             (repoName (repo (DockerExec.goalEvent gi)))
             (sha (DockerExec.goalEvent gi)) None
             (workspaceId (DockerExec.context gi)) = Throw e ->
           DockerExec.doDockerRun W mergeOptions o gi s
           = (Throw e,
              emit (PostLinkImage (owner (repo (DockerExec.goalEvent gi)))
                      (repoName (repo (DockerExec.goalEvent gi)))
                      (sha (DockerExec.goalEvent gi)) None
                      (workspaceId (DockerExec.context gi))) s2)).
Proof.
  intros W mergeOptions o gi s s1 e Hp Hb.
  rewrite (doDockerRun_steps _ _ _ _ _ _ Hp), Hb. split.
  - intros Hs. unfold bind. rewrite runWithDocker_run. now rewrite Hs.
  - intros r s2 Hr C HL. unfold bind.
    rewrite Hr, (proj2 (failed_false r) C). rewrite linkImage_run.
    now rewrite HL.
Qed.

(** The webhook cannot be reached after a run that exits with 0. *)
Lemma doDockerRun_rejections_propagate_witness :
  fst (DockerExec.doDockerRun SampleGraph.servicesDown Sample.noOverlay
         (Sample.runOptions (Some DockerExec.docker) None None)
         (Sample.runInvocation "gs-1")
         (Sample.start (Sample.runOptions None None None)))
  = Throw "webhook unreachable".
Proof.
  erewrite (proj2 (doDockerRun_rejections_propagate SampleGraph.servicesDown
                     Sample.noOverlay
                     (Sample.runOptions (Some DockerExec.docker) None None)
                     (Sample.runInvocation "gs-1")
                     (Sample.start (Sample.runOptions None None None))
                     _ "webhook unreachable" eq_refl eq_refl)).
  all: cycle 1.
  all: reflexivity.
Defined.

(** ** DOCKER_CONFIG, invocation by invocation *)

Lemma docker_name_single (id : string) :
  noSlash id -> singleName (".docker-" ++ id)%string.
Proof.
  intros Hn. repeat split; try (simpl; discriminate).
  unfold noSlash. simpl. intros H.
  repeat (destruct H as [H | H]; [discriminate H |]).
  now apply Hn.
Qed.

(** With credentials among the configured registries, or with a docker
    config, something is configured and nothing is discovered. *)
Lemma configured_when_scoped_or_shared (o : DockerExec.DockerOptionsPlus) :
  existsb DockerExec.hasCredentials
    (DockerExec.toArray (DockerExec.registryOrEmpty (DockerExec.registry o)))
  = true
  \/ JS.truthy (DockerExec.config o) = true ->
  DockerExec.noRegistryConfigured o = false.
Proof.
  unfold DockerExec.noRegistryConfigured. intros [H | H].
  - destruct (DockerExec.toArray _); [discriminate H |].
    apply andb_false_r.
  - now rewrite H.
Qed.

Lemma docker_run_after_probe (W : World) mergeOptions o gi
      (s : St DockerExec.DockerOptionsPlus) r :
  let merged := mergeOptions o "docker.build" in
  DockerExec.builder merged = Some DockerExec.docker ->
  spawnResult W (trace s) (DockerExec.probeCall "docker" ["help"]) = Ok r ->
  DockerExec.noRegistryConfigured merged = false ->
  runsAfterProbeWith W mergeOptions o gi s
    (DockerExec.dockerConfigPath W merged (DockerExec.goalEvent gi)).
Proof.
  intros merged Hb Hs Hn. unfold runsAfterProbeWith. cbv zeta. fold merged.
  assert (Hp : DockerExec.prepare W mergeOptions o s
               = (Ok tt,
                  mkSt (trace s
                        ++ [Spawned (DockerExec.probeCall "docker" ["help"])])
                       merged)).
  { rewrite (prepare_probe_started W mergeOptions o s "docker" ["help"] r);
      [| left; repeat split; exact Hb | exact Hs].
    now apply discoverRegistries_skip. }
  rewrite (doDockerRun_steps _ _ _ _ _ _ Hp). simpl options. rewrite Hb.
  destruct (docker_dispatch_trace W gi
              (mkSt (trace s
                     ++ [Spawned (DockerExec.probeCall "docker" ["help"])])
                    merged)) as [rest [E _]].
  exists rest. rewrite E. simpl. now rewrite <- app_assoc.
Qed.

(** C8, amended.  In an invocation of [doDockerRun] with the docker
    builder whose probe starts, [docker run] is the process started after
    the probe, and its DOCKER_CONFIG is: the .docker directory of the
    home, the same for every invocation, when some configured registry has
    both a user and a password; otherwise the directory .docker-<goalSetId>
    of the home when a docker config is supplied; otherwise, with a
    registry configured, undefined.  Only the second is scoped: for goal
    set ids that differ and have no slash the directories differ, given
    that the join to the home keeps different names of one component
    apart. *)
Theorem docker_config_scoping :
  forall (W : World) mergeOptions (o : DockerExec.DockerOptionsPlus),
    let merged := mergeOptions o "docker.build" in
    let credentials :=
      existsb DockerExec.hasCredentials
        (DockerExec.toArray
           (DockerExec.registryOrEmpty (DockerExec.registry merged))) in
    let probe := DockerExec.probeCall "docker" ["help"] in
    DockerExec.builder merged = Some DockerExec.docker ->
    (credentials = true ->
     forall gi s r,
       spawnResult W (trace s) probe = Ok r ->
       runsAfterProbeWith W mergeOptions o gi s
         (Some (pathJoin W (homedir W) ".docker")))
    /\ (credentials = false -> JS.truthy (DockerExec.config merged) = true ->
        forall gi s r,
          spawnResult W (trace s) probe = Ok r ->
          runsAfterProbeWith W mergeOptions o gi s
            (Some (pathJoin W (homedir W)
                     (".docker-" ++ goalSetId (DockerExec.goalEvent gi))%string)))
    /\ (credentials = false -> JS.truthy (DockerExec.config merged) = false ->
        DockerExec.noRegistryConfigured merged = false ->
        forall gi s r,
          spawnResult W (trace s) probe = Ok r ->
          runsAfterProbeWith W mergeOptions o gi s None)
    /\ (joinKeepsNamesApart W ->
        forall g1 g2 : SdmGoalEvent,
          goalSetId g1 <> goalSetId g2 ->
          noSlash (goalSetId g1) -> noSlash (goalSetId g2) ->
          pathJoin W (homedir W) (".docker-" ++ goalSetId g1)%string
          <> pathJoin W (homedir W) (".docker-" ++ goalSetId g2)%string).
Proof.
  intros W mergeOptions o merged credentials probe Hb.
  split; [| split; [| split]].
  - intros Hc gi s r Hs.
    pose proof (docker_run_after_probe W mergeOptions o gi s r Hb Hs
                  (configured_when_scoped_or_shared merged (or_introl Hc)))
      as H.
    unfold DockerExec.dockerConfigPath in H. fold merged credentials in H.
    now rewrite Hc in H.
  - intros Hc Hcfg gi s r Hs.
    pose proof (docker_run_after_probe W mergeOptions o gi s r Hb Hs
                  (configured_when_scoped_or_shared merged (or_intror Hcfg)))
      as H.
    unfold DockerExec.dockerConfigPath in H. fold merged credentials in H.
    now rewrite Hc, Hcfg in H.
  - intros Hc Hcfg Hn gi s r Hs.
    pose proof (docker_run_after_probe W mergeOptions o gi s r Hb Hs Hn) as H.
    unfold DockerExec.dockerConfigPath in H. fold merged credentials in H.
    now rewrite Hc, Hcfg in H.
  - intros Hj g1 g2 Hne N1 N2 H.
    apply Hne, docker_prefix_inj.
    apply Hj; [now apply docker_name_single | now apply docker_name_single |].
    exact H.
Qed.

(** A supplied docker config and no registry: the run of the goal set
    gs-1 gets its own directory, which is not that of the goal set gs-2. *)
Lemma docker_config_scoping_witness :
  runsAfterProbeWith (Sample.world Sample.allExitZero true false)
    Sample.noOverlay
    (Sample.runOptions (Some DockerExec.docker) None (Some "{}"))
    (Sample.runInvocation "gs-1")
    (Sample.start (Sample.runOptions None None None))
    (Some "/home/sdm/.docker-gs-1")
  /\ "/home/sdm/.docker-gs-1" <> "/home/sdm/.docker-gs-2".
Proof.
  pose proof (docker_config_scoping
                (Sample.world Sample.allExitZero true false)
                Sample.noOverlay
                (Sample.runOptions (Some DockerExec.docker) None (Some "{}"))
                eq_refl) as [_ [Hscoped [_ Hapart]]].
  split.
  - apply (Hscoped eq_refl eq_refl (Sample.runInvocation "gs-1")
             (Sample.start (Sample.runOptions None None None)) Success).
    reflexivity.
  - assert (Hj : joinKeepsNamesApart
                   (Sample.world Sample.allExitZero true false)).
    { intros a b _ _ H. simpl in H. now inversion H. }
    apply (Hapart Hj (Sample.goal "gs-1") (Sample.goal "gs-2")).
    + discriminate.
    + unfold noSlash. simpl. intros H.
      repeat (destruct H as [H | H]; [discriminate H |]). exact H.
    + unfold noSlash. simpl. intros H.
      repeat (destruct H as [H | H]; [discriminate H |]). exact H.
Defined.
